(** * The project settings route: [action] of [$projectP/settings.tsx]

    A shallow embedding of the form handler of
    [apps/webapp/app/features/ee/projects/routes/$projectP/settings.tsx]:
    the reshaping of the flat form fields into the environment-variable
    object, and the handler itself, run against its collaborators
    (the two services and the flash-message helpers) with a log of every
    call it makes. *)

From Stdlib Require Import String Ascii List ZArith NArith Bool Lia Permutation.
Import ListNotations.
Local Open Scope string_scope.
Local Open Scope list_scope.

(** ** JavaScript strings

    A string is held as the bytes of its UTF-8 encoding.  The handler
    only compares strings with ASCII literals, so the byte strings of the
    Standard Library carry the same prefixes and first occurrences. *)
Module JSString.

(** [s.startsWith(pat)] *)
Definition startsWith (s pat : string) : bool := String.prefix pat s.

Fixpoint drop (n : nat) (s : string) : string :=
  match n, s with
  | O, _ => s
  | S _, EmptyString => EmptyString
  | S n', String _ s' => drop n' s'
  end.

(** [s.replace(pat, rep)] for a string pattern: only the first occurrence
    of [pat] is replaced.  [rep] is taken literally (the handler passes
    the empty string, which has no replacement pattern in it). *)
Fixpoint replace (pat rep s : string) : string :=
  if String.prefix pat s then rep ++ drop (String.length pat) s
  else match s with
       | EmptyString => EmptyString
       | String c s' => String c (replace pat rep s')
       end.

(** [s.includes(pat)] *)
Fixpoint includes (s pat : string) : bool :=
  if String.prefix pat s then true
  else match s with
       | EmptyString => false
       | String _ s' => includes s' pat
       end.

End JSString.

(** ** JavaScript objects used as records of own enumerable properties

    An object is the list of its own properties in the order
    [Object.entries] reports them: array-index keys first, in ascending
    numeric order, then the other string keys in the order they were
    created.  Writing an existing key keeps its place. *)
Module JSObject.

Definition t (V : Type) : Type := list (string * V).

Definition digit_of (c : ascii) : option N :=
  let n := N_of_ascii c in
  if ((48 <=? n) && (n <=? 57))%N then Some (n - 48)%N else None.

Fixpoint parse_digits (acc : N) (s : string) : option N :=
  match s with
  | EmptyString => Some acc
  | String c s' =>
      match digit_of c with
      | Some d => parse_digits (10 * acc + d)%N s'
      | None => None
      end
  end.

(** A key is an array index when it is the canonical decimal form of an
    integer below 2^32 - 1. *)
Definition array_index (k : string) : option N :=
  match k with
  | EmptyString => None
  | String c rest =>
      match digit_of c, rest with
      | None, _ => None
      | Some 0%N, EmptyString => Some 0%N
      | Some 0%N, String _ _ => None
      | Some _, _ =>
          match parse_digits 0 k with
          | Some n => if (n <=? 4294967294)%N then Some n else None
          | None => None
          end
      end
  end.

Section Ops.
Context {V : Type}.

(** The own property [k] of [o]; [None] when [o] has no own property
    [k] (what [o[k]] then reads is up to the prototype). *)
Fixpoint get (k : string) (o : t V) : option V :=
  match o with
  | [] => None
  | (k', v) :: o' => if String.eqb k' k then Some v else get k o'
  end.

Definition has (k : string) (o : t V) : bool :=
  match get k o with Some _ => true | None => false end.

Definition keys (o : t V) : list string := map fst o.

Fixpoint update (k : string) (v : V) (o : t V) : t V :=
  match o with
  | [] => []
  | (k', v') :: o' =>
      if String.eqb k' k then (k', v) :: o' else (k', v') :: update k v o'
  end.

Fixpoint insert_index (n : N) (k : string) (v : V) (o : t V) : t V :=
  match o with
  | [] => [(k, v)]
  | (k', v') :: o' =>
      match array_index k' with
      | Some m =>
          if (m <? n)%N then (k', v') :: insert_index n k v o'
          else (k, v) :: o
      | None => (k, v) :: o
      end
  end.

(** CreateDataProperty: [o[k] = v] on a plain object. *)
Definition set (k : string) (v : V) (o : t V) : t V :=
  if has k o then update k v o
  else match array_index k with
       | Some n => insert_index n k v o
       | None => o ++ [(k, v)]
       end.

(** [Object.entries(o)] *)
Definition entries (o : t V) : list (string * V) := o.

(** [Object.fromEntries(iterable)]: one CreateDataProperty per pair,
    in iteration order, on a fresh object. *)
Definition fromEntries (l : list (string * V)) : t V :=
  fold_left (fun o kv => set (fst kv) (snd kv) o) l [].

End Ops.

End JSObject.

(** ** The form data of the request *)

(** A [FormDataEntryValue] is a string or an uploaded file. *)
Inductive FormDataEntryValue : Type :=
| FString (s : string)
| FFile (filename : string).

(** The entry list of a [FormData], in the order of the form. *)
Definition FormData : Type := list (string * FormDataEntryValue).

(** [formPayload.get(name)]: the first value of that name, [None] for
    [null]. *)
Fixpoint FormData_get (name : string) (formPayload : FormData)
  : option FormDataEntryValue :=
  match formPayload with
  | [] => None
  | (k, v) :: rest => if String.eqb k name then Some v else FormData_get name rest
  end.

(** [action === "destroy"] *)
Definition is_destroy (action : option FormDataEntryValue) : bool :=
  match action with
  | Some (FString s) => String.eqb s "destroy"
  | _ => false
  end.

(** ** Reshaping [envVars[NAME]] fields (lines 66-72) *)
Section Reshape.
Context {V : Type}.

(** [key.replace("envVars[", "").replace("]", "")] *)
Definition envVarKey (key : string) : string :=
  JSString.replace "]" "" (JSString.replace "envVars[" "" key).

Definition is_envVar_entry (kv : string * V) : bool :=
  JSString.startsWith (fst kv) "envVars[".

(** The reducer: [{ ...acc, [envVarKey]: value }]. *)
Definition envVars_step (acc : JSObject.t V) (kv : string * V) : JSObject.t V :=
  JSObject.set (envVarKey (fst kv)) (snd kv) acc.

Definition envVars_of (formEntries : JSObject.t V) : JSObject.t V :=
  fold_left envVars_step
    (filter is_envVar_entry (JSObject.entries formEntries)) [].

End Reshape.

(** ** Values exchanged with the collaborators *)

(** A zod issue, kept to its field path and message. *)
Record Issue : Type := { path : list string; message : string }.

(** What the handler throws or lets through: the schema error of the
    route parameters, what a collaborator rejected with, and the
    [TypeError] of [headers.set(header, value)] when the runtime refuses
    the value. *)
Inductive Exn : Type :=
| ZodError (issues : list Issue)
| Rejected (reason : string)
| TypeError (header value : string).

(** The project a [DisableProjectService] hands back; the handler reads its
    [name]. *)
Record Project : Type := { name : string }.

(** The request: its body, as [request.formData()] resolves or rejects,
    and the headers the flash-message helper reads. *)
Record Request : Type := {
  request_formData : Exn + FormData;
  request_headers : list (string * string)
}.

(** Route parameters: [{ [key: string]: string | undefined }]. *)
Definition Params : Type := JSObject.t (option string).

(** [z.string()] on the property [key] of the parameters. *)
Definition z_string (key : string) (params : Params) : Issue + string :=
  match JSObject.get key params with
  | Some (Some s) => inr s
  | _ => inl {| path := [key]; message := "Required" |}
  end.

Definition issues_of {A : Type} (r : Issue + A) : list Issue :=
  match r with inl i => [i] | inr _ => [] end.

(** [z.object({ projectP: z.string(), organizationSlug: z.string() }).parse(params)] *)
Definition parseParams (params : Params) : Exn + (string * string) :=
  match z_string "projectP" params, z_string "organizationSlug" params with
  | inr projectP, inr organizationSlug => inr (projectP, organizationSlug)
  | a, b => inl (ZodError (issues_of a ++ issues_of b))
  end.

Section Handler.

(** The state behind the services (database, deployments, sessions) and
    the values they pass around are theirs. *)
Variables World Session Headers Data : Type.

Definition FormEntries : Type := JSObject.t FormDataEntryValue.
Definition EnvVars : Type := JSObject.t FormDataEntryValue.

(** Modelled from the spec: the result of [UpdateProjectSettings.validate],
    whose class is not part of this module: a tagged variant, either a
    payload error carrying field-path/message pairs or a success carrying
    the validated payload. *)
Inductive ValidationResult : Type :=
| payloadError (errors : list Issue)
| success (data : Data).

(** Modelled from the spec: the collaborators the module imports.  A
    service call runs on the state of the world and either throws or
    returns; [validate] is synchronous and lets no exception through;
    [new DisableProjectService()] and [new UpdateProjectSettings()] only
    build the objects the calls are made on.  [Location_accepted] is the
    runtime's part of [redirect] of remix-typedjson: whether
    [headers.set("Location", url)] takes [url] as a header value or
    throws a [TypeError] (as it does for a line feed or a character above
    U+00FF).  The headers [setToastMessageCookie] returns are taken to be
    well-formed. *)
Record Services : Type := {
  DisableProjectService_call : string -> World -> (Exn + Project) * World;
  UpdateProjectSettings_validate : FormEntries -> EnvVars -> ValidationResult;
  UpdateProjectSettings_call : string -> Data -> World -> (Exn + bool) * World;
  setRequestSuccessMessage : Request -> string -> World -> (Exn + Session) * World;
  setToastMessageCookie : Session -> World -> (Exn + Headers) * World;
  Location_accepted : string -> bool
}.

(** Every call that leaves the handler, with what came back. *)
Inductive Event : Type :=
| EvFormData (res : Exn + FormData)
| EvDisable (projectP : string) (res : Exn + Project)
| EvConsoleLog (formEntries : FormEntries) (envVars : EnvVars)
| EvValidate (formEntries : FormEntries) (envVars : EnvVars) (res : ValidationResult)
| EvUpdate (projectP : string) (data : Data) (res : Exn + bool)
| EvSuccessMessage (request : Request) (text : string) (res : Exn + Session)
| EvToastCookie (session : Session) (res : Exn + Headers).

Record State : Type := { world : World; trace : list Event }.

Definition start (w : World) : State := {| world := w; trace := [] |}.

Inductive Outcome (A : Type) : Type :=
| Returned (a : A)
| Threw (e : Exn).
Arguments Returned {A} a.
Arguments Threw {A} e.

(** The handler's monad: state of the world, call log, exceptions. *)
Definition M (A : Type) : Type := State -> Outcome A * State.

Definition ret {A} (a : A) : M A := fun st => (Returned a, st).

Definition bind {A B} (m : M A) (k : A -> M B) : M B :=
  fun st =>
    match m st with
    | (Returned a, st') => k a st'
    | (Threw e, st') => (Threw e, st')
    end.

Definition lift {A} (r : Exn + A) : M A :=
  fun st => match r with inr a => (Returned a, st) | inl e => (Threw e, st) end.

Definition log (ev : Event) : M unit :=
  fun st => (Returned tt, {| world := world st; trace := trace st ++ [ev] |}).

(** A call to a stateful collaborator: run it, log it, return or throw. *)
Definition call {A} (f : World -> (Exn + A) * World) (ev : Exn + A -> Event) : M A :=
  fun st =>
    let (r, w') := f (world st) in
    let st' := {| world := w'; trace := trace st ++ [ev r] |} in
    match r with
    | inr a => (Returned a, st')
    | inl e => (Threw e, st')
    end.

Notation "x <- m ;; k" := (bind m (fun x => k))
  (at level 61, m at next level, right associativity).
Notation "m ;;; k" := (bind m (fun _ => k))
  (at level 61, right associativity).

(** The bodies of the responses built by [typedjson]. *)
Inductive Body : Type :=
| validationError (errors : list Issue)
| successMarker.

Inductive Response : Type :=
| redirect (url : string) (headers : option Headers)
| typedjson (body : Body) (status : Z) (headers : option Headers).

Variable svc : Services.

(** [redirect(url, { headers })] of remix-typedjson: it copies the
    headers, sets [Location] to [url], which the runtime may refuse with
    a [TypeError], and builds the response. *)
Definition redirect_to (url : string) (headers : Headers) : M Response :=
  if Location_accepted svc url
  then ret (redirect url (Some headers))
  else lift (inl (TypeError "Location" url)).

Definition removed_message (project : Project) : string :=
  "Repository " ++ name project ++ " has been removed and will no longer be deployed.".

Definition updated_message (isDeploying : bool) : string :=
  if isDeploying then "Settings updated. Deploying your repo now..."
  else "Settings updated. They'll take effect on the next deployment.".

(** [export async function action({ params, request })] *)
Definition action (params : Params) (request : Request) : M Response :=
  po <- lift (parseParams params) ;;
  let projectP := fst po in
  let organizationSlug := snd po in
  formPayload <- call (fun w => (request_formData request, w)) EvFormData ;;
  let action := FormData_get "action" formPayload in
  if is_destroy action then
    project <- call (DisableProjectService_call svc projectP) (EvDisable projectP) ;;
    session <- call (setRequestSuccessMessage svc request (removed_message project))
                    (EvSuccessMessage request (removed_message project)) ;;
    headers <- call (setToastMessageCookie svc session) (EvToastCookie session) ;;
    redirect_to ("/orgs/" ++ organizationSlug ++ "/projects") headers
  else
    let formEntries := JSObject.fromEntries formPayload in
    let envVars := envVars_of formEntries in
    log (EvConsoleLog formEntries envVars) ;;;
    let validation := UpdateProjectSettings_validate svc formEntries envVars in
    log (EvValidate formEntries envVars validation) ;;;
    match validation with
    | payloadError errors =>
        ret (typedjson (validationError errors) 422 None)
    | success data =>
        isDeploying <- call (UpdateProjectSettings_call svc projectP data)
                            (EvUpdate projectP data) ;;
        session <- call (setRequestSuccessMessage svc request (updated_message isDeploying))
                        (EvSuccessMessage request (updated_message isDeploying)) ;;
        if isDeploying then
          headers <- call (setToastMessageCookie svc session) (EvToastCookie session) ;;
          redirect_to ("/orgs/" ++ organizationSlug ++ "/projects/" ++ projectP) headers
        else
          headers <- call (setToastMessageCookie svc session) (EvToastCookie session) ;;
          ret (typedjson successMarker 200 (Some headers))
    end.

(** *** Reading the call log *)

Definition update_calls (tr : list Event) : list (string * Data) :=
  flat_map (fun ev => match ev with EvUpdate p d _ => [(p, d)] | _ => [] end) tr.

Definition disable_calls (tr : list Event) : list string :=
  flat_map (fun ev => match ev with EvDisable p _ => [p] | _ => [] end) tr.

Definition validate_calls (tr : list Event) : list (FormEntries * EnvVars) :=
  flat_map (fun ev => match ev with EvValidate fe env _ => [(fe, env)] | _ => [] end) tr.

Definition flash_calls (tr : list Event) : list string :=
  flat_map (fun ev => match ev with EvSuccessMessage _ text _ => [text] | _ => [] end) tr.

Definition cookie_calls (tr : list Event) : list Session :=
  flat_map (fun ev => match ev with EvToastCookie s _ => [s] | _ => [] end) tr.

Definition formData_reads (tr : list Event) : nat :=
  length (filter (fun ev => match ev with EvFormData _ => true | _ => false end) tr).

(** No collaborator threw during the run. *)
Definition no_throw (ev : Event) : bool :=
  match ev with
  | EvFormData (inl _) | EvDisable _ (inl _) | EvUpdate _ _ (inl _)
  | EvSuccessMessage _ _ (inl _) | EvToastCookie _ (inl _) => false
  | _ => true
  end.

End Handler.

Arguments Returned {A} a.
Arguments Threw {A} e.
Arguments payloadError {Data} errors.
Arguments success {Data} data.
Arguments redirect {Headers} url headers.
Arguments typedjson {Headers} body status headers.
Arguments start {World Session Headers Data} w.
Arguments world {World Session Headers Data} s.
Arguments trace {World Session Headers Data} s.
Arguments action {World Session Headers Data} svc params request _.
Arguments update_calls {Session Headers Data} tr.
Arguments disable_calls {Session Headers Data} tr.
Arguments validate_calls {Session Headers Data} tr.
Arguments flash_calls {Session Headers Data} tr.
Arguments cookie_calls {Session Headers Data} tr.
Arguments formData_reads {Session Headers Data} tr.
Arguments DisableProjectService_call {World Session Headers Data} s _ _.
Arguments UpdateProjectSettings_validate {World Session Headers Data} s _ _.
Arguments UpdateProjectSettings_call {World Session Headers Data} s _ _ _.
Arguments setRequestSuccessMessage {World Session Headers Data} s _ _ _.
Arguments setToastMessageCookie {World Session Headers Data} s _ _.
Arguments Location_accepted {World Session Headers Data} s _.
Arguments EvFormData {Session Headers Data} res.
Arguments EvDisable {Session Headers Data} projectP res.
Arguments EvConsoleLog {Session Headers Data} formEntries envVars.
Arguments EvValidate {Session Headers Data} formEntries envVars res.
Arguments EvUpdate {Session Headers Data} projectP data res.
Arguments EvSuccessMessage {Session Headers Data} request text res.
Arguments EvToastCookie {Session Headers Data} session res.
Arguments no_throw {Session Headers Data} ev.

(** ** The settings page: [ProjectSettingsPage] (lines 111-275) *)

(** Modelled from the spec: what [useCurrentProject] hands the page (its
    module is not part of this one): the project's branch, build command,
    start command and auto-deploy flag, whether variables are still
    missing, and the ordered environment-variable key/value pairs. *)
Record EnvVar : Type := { key : string; value : string }.

Record PageProject : Type := {
  autoDeploy : bool;
  branch : string;
  buildCommand : string;
  startCommand : string
}.

Record CurrentProject : Type := {
  project : PageProject;
  needsEnvVars : bool;
  envVars : list EnvVar
}.

(** What the page reads of [useTransition()]: [state], [type] and, when
    there is one, the [method] of [submission]. *)
Record Submission : Type := { method : string }.

Record Transition : Type := {
  transition_state : string;
  transition_type : string;
  transition_submission : option Submission
}.

(** The values the page gives to props. *)
Inductive PropValue : Type :=
| PString (s : string)
| PBool (b : bool)
| PErrors (errors : list Issue)
| PPath (path : list string)
| PHandler (preventDefault : (string -> bool) -> bool).

(** The React elements the page returns, before any component renders:
    an element with its type, attributes and children, a text, the [false] a
    [cond && ...] leaves behind, or the array a [map] yields. *)
#[warnings="-register-all"]
Inductive Node : Type :=
| Element (tag : string) (props : list (string * PropValue)) (children : list Node)
| TextNode (text : string)
| FalseNode
| ArrayNode (items : list Node).

(** The [isSubmittingOrLoading] of the page.  [&&] and [||] evaluate from
    the left, so [transition.submission.method] is read only for a
    submitting action submission; reading it off [undefined] throws, which
    is [None] here. *)
Definition isSubmittingOrLoading (transition : Transition) : option bool :=
  let loading :=
    String.eqb (transition_state transition) "loading"
    && String.eqb (transition_type transition) "actionRedirect" in
  if String.eqb (transition_state transition) "submitting"
     && String.eqb (transition_type transition) "actionSubmission"
  then match transition_submission transition with
       | None => None
       | Some submission =>
           Some (if String.eqb (method submission) "POST" then true else loading)
       end
  else Some loading.

(** [!isSubmittingOrLoading && actionData?.type === "validationError" &&
    <FormError errors={actionData.errors} path={path} />] *)
Definition formError (submitting : bool) (actionData : option Body)
  (path : list string) : Node :=
  if submitting then FalseNode
  else match actionData with
       | Some (validationError errors) =>
           Element "FormError" [("errors", PErrors errors); ("path", PPath path)] []
       | _ => FalseNode
       end.

(** The [InputGroup] the page maps each environment variable to. *)
Definition envVarGroup (submitting : bool) (actionData : option Body)
  (envVar : EnvVar) : Node :=
  Element "InputGroup" [("key", PString (key envVar))]
    [Element "Label" [("htmlFor", PString (key envVar))] [TextNode (key envVar)];
     Element "Input"
       [("id", PString (key envVar));
        ("name", PString ("envVars[" ++ key envVar ++ "]"));
        ("spellCheck", PBool false);
        ("placeholder", PString "Enter a value");
        ("className", PString "");
        ("disabled", PBool submitting);
        ("defaultValue", PString (value envVar))] [];
     formError submitting actionData [key envVar]].

(** The text input of a build-and-deploy field, with its label and its
    error slot: the three groups of the page differ in these four
    strings only. *)
Definition commandGroup (submitting : bool) (actionData : option Body)
  (name label placeholder defaultValue : string) : Node :=
  Element "InputGroup" []
    [Element "Label" [("htmlFor", PString name)] [TextNode label];
     Element "Input"
       [("id", PString name);
        ("name", PString name);
        ("spellCheck", PBool false);
        ("placeholder", PString placeholder);
        ("className", PString "");
        ("disabled", PBool submitting);
        ("defaultValue", PString defaultValue)] [];
     formError submitting actionData [name]].

(** [(e) => !confirm(...) && e.preventDefault()]: given what [confirm]
    answers, whether [preventDefault] is called. *)
Definition confirmRemoval (confirm : string -> bool) : bool :=
  negb (confirm "Are you sure you want to remove this repository? This action cannot be undone. Any running deployments will be stopped.").

(** What [ProjectSettingsPage] returns once [isSubmittingOrLoading] is
    known. *)
Definition settingsPage (current : CurrentProject) (actionData : option Body)
  (submitting : bool) : Node :=
  Element "div" [("className", PString "flex h-full flex-col")]
    [Element "div" [("className", PString "flex items-start justify-between")]
       [Element "Header1" [("className", PString "mb-6")] [TextNode "Settings"]];
     (if needsEnvVars current then
        Element "PanelWarning"
          [("message", PString "Deployments are disabled until you add the required environment variables.");
           ("className", PString "mb-6")] []
      else FalseNode);
     Element "Panel" [("className", PString "w-2/3 !p-4")]
       [Element "Form" [("method", PString "post")]
          [(if (0 <? List.length (envVars current))%nat then
              Element "Fragment" []
                [Element "SubTitle" [] [TextNode "Environment Variables"];
                 Element "div" [("className", PString "mb-3 grid grid-cols-1 gap-4")]
                   [ArrayNode (map (envVarGroup submitting actionData) (envVars current))]]
            else FalseNode);
           Element "SubTitle" [] [TextNode "Build & Deploy"];
           Element "div" [("className", PString "mb-3 grid grid-cols-2 gap-4")]
             [Element "InputGroup" []
                [Element "Label" [("htmlFor", PString "autoDeploy")] [TextNode "Auto Deploy"];
                 Element "Select"
                   [("disabled", PBool submitting);
                    ("name", PString "autoDeploy");
                    ("required", PBool true);
                    ("defaultValue",
                     PString (if autoDeploy (project current) then "yes" else "no"))]
                   [Element "option" [("value", PString "yes")]
                      [TextNode "Yes, automatically deploy on every push"];
                    Element "option" [("value", PString "no")]
                      [TextNode "No, I'll handle my deploys manually"]]];
              commandGroup submitting actionData "branch" "Repo Branch" "main"
                (branch (project current))];
           Element "div" [("className", PString "mb-3 grid grid-cols-2 gap-4")]
             [commandGroup submitting actionData "buildCommand" "Build Command"
                "npm install" (buildCommand (project current));
              commandGroup submitting actionData "startCommand" "Start Command"
                "npm install" (startCommand (project current))];
           Element "div" [("className", PString "flex justify-end")]
             [if submitting then
                Element "PrimaryButton" [("disabled", PBool true)] [TextNode "Saving..."]
              else
                Element "PrimaryButton"
                  [("type", PString "submit"); ("name", PString "action");
                   ("value", PString "save")] [TextNode "Save"]]]];
     Element "div" [("className", PString "mt-8 flex gap-3")]
       [Element "Form"
          [("method", PString "delete");
           ("reloadDocument", PBool true);
           ("onSubmit", PHandler confirmRemoval)]
          [Element "DangerButton"
             [("name", PString "action"); ("value", PString "destroy");
              ("type", PString "submit")] [TextNode "Remove repository"]]]].

(** [export default function ProjectSettingsPage()], on what its three
    hooks return. *)
Definition ProjectSettingsPage (current : CurrentProject) (actionData : option Body)
  (transition : Transition) : option Node :=
  match isSubmittingOrLoading transition with
  | Some submitting => Some (settingsPage current actionData submitting)
  | None => None
  end.

(** *** Reading the elements *)

Definition prop (name : string) (props : list (string * PropValue)) : option PropValue :=
  JSObject.get name props.

(** Every node of a tree, in document order. *)
Fixpoint nodes (n : Node) : list Node :=
  n :: match n with
       | Element _ _ children => flat_map nodes children
       | ArrayNode items => flat_map nodes items
       | _ => []
       end.

Definition string_prop (name : string) (n : Node) : option string :=
  match n with
  | Element _ props _ =>
      match prop name props with Some (PString s) => Some s | _ => None end
  | _ => None
  end.

Definition has_tag (tag : string) (n : Node) : bool :=
  match n with Element t _ _ => String.eqb t tag | _ => false end.

(** The [name] and [defaultValue] of the fields of a tree, in document
    order: what the form holds before the user edits it. *)
Definition field_of (n : Node) : list (string * string) :=
  match string_prop "name" n, string_prop "defaultValue" n with
  | Some name, Some v => [(name, v)]
  | _, _ => []
  end.

Definition fields (n : Node) : list (string * string) :=
  flat_map field_of (nodes n).

(** The [name]/[value] pairs of the buttons of a tree. *)
Definition button_of (n : Node) : list (string * string) :=
  match string_prop "name" n, string_prop "value" n with
  | Some name, Some v => [(name, v)]
  | _, _ => []
  end.

Definition buttons (n : Node) : list (string * string) :=
  flat_map button_of (nodes n).

(** The [disabled] prop of the inputs and selects of a tree. *)
Definition control_disabled (n : Node) : list (option PropValue) :=
  match n with
  | Element tag props _ =>
      if String.eqb tag "Input" || String.eqb tag "Select"
      then [prop "disabled" props] else []
  | _ => []
  end.

Definition controls_disabled (n : Node) : list (option PropValue) :=
  flat_map control_disabled (nodes n).

(** The [path] and [errors] of the [FormError] elements of a tree. *)
Definition formError_of (n : Node) : list (list string * list Issue) :=
  match n with
  | Element tag props _ =>
      if String.eqb tag "FormError" then
        match prop "path" props, prop "errors" props with
        | Some (PPath p), Some (PErrors e) => [(p, e)]
        | _, _ => []
        end
      else []
  | _ => []
  end.

Definition formErrors (n : Node) : list (list string * list Issue) :=
  flat_map formError_of (nodes n).

(** The form fields as a browser sends them: strings. *)
Definition as_formData (l : list (string * string)) : FormData :=
  map (fun kv => (fst kv, FString (snd kv))) l.

(** ** Vocabulary of the statements *)

(** [s.endsWith(pat)] *)
Definition endsWith (s pat : string) : bool :=
  (String.length pat <=? String.length s)%nat
  && String.eqb (substring (String.length s - String.length pat) (String.length pat) s) pat.

(** The field name the settings form gives the variable [name]. *)
Definition wrapped (name : string) : string := "envVars[" ++ name ++ "]".

(** The shape the specification gives the selected keys: prefixed with
    [envVars[] and suffixed with []]. *)
Definition spec_shape (key : string) : bool :=
  JSString.startsWith key "envVars[" && endsWith key "]".

(** The name the specification recovers from such a key: the key without
    the leading [envVars[] and without its last character. *)
Definition spec_name (key : string) : string :=
  substring 8 (String.length key - 9) key.

(** The value of the last pair of [l] whose key is sent to [n] by [f]. *)
Fixpoint lookup_last {V : Type} (f : string -> string) (n : string)
  (l : list (string * V)) : option V :=
  match l with
  | [] => None
  | (k, v) :: l' =>
      match lookup_last f n l' with
      | Some v' => Some v'
      | None => if String.eqb (f k) n then Some v else None
      end
  end.

(** No field of [l] other than [envVars[name]] is reshaped to [name]. *)
Definition only_field_for {V : Type} (name : string) (l : list (string * V)) : Prop :=
  forall k, In k (map fst l) -> JSString.startsWith k "envVars[" = true ->
            envVarKey k = name -> k = wrapped name.

(** Modelled from the spec: [UpdateProjectSettings.validate], whose class is
    not part of this module, reports a schema violation as a payload error
    carrying the violated field paths and their messages, so at least one. *)
Definition validator_reports_issues {World Session Headers Data : Type}
  (svc : Services World Session Headers Data) : Prop :=
  forall formEntries envVars errors,
    UpdateProjectSettings_validate svc formEntries envVars = payloadError errors ->
    errors <> [].


(** [key] occurs in the form with value [x], and not again after it. *)
Definition last_occurrence {V : Type} (key : string) (l : list (string * V)) (x : V) : Prop :=
  exists l1 l2, l = l1 ++ (key, x) :: l2 /\ ~ In key (map fst l2).

(** ** A concrete set of collaborators and requests

    A small world on which the handler runs by computation: the world is
    the journal of what the services persisted, a session is the flash
    text, the headers are a cookie list, and the validator asks for a
    non-empty [branch]. *)
Module Sample.

Record SettingsData : Type := {
  data_autoDeploy : bool;
  data_branch : string;
  data_envVars : JSObject.t FormDataEntryValue
}.

Definition World : Type := list string.
Definition Session : Type := string.
Definition Headers : Type := list (string * string).

Definition validate (formEntries envVars : JSObject.t FormDataEntryValue)
  : ValidationResult SettingsData :=
  match JSObject.get "branch" formEntries with
  | Some (FString b) =>
      if String.eqb b "" then
        payloadError [{| path := ["branch"]; message := "String must contain at least 1 character(s)" |}]
      else
        success {| data_autoDeploy :=
                     match JSObject.get "autoDeploy" formEntries with
                     | Some (FString "yes") => true
                     | _ => false
                     end;
                   data_branch := b;
                   data_envVars := envVars |}
  | _ => payloadError [{| path := ["branch"]; message := "Required" |}]
  end.

(** What Node's [Headers] takes as a value: the tab and the characters
    U+0020-U+007E and U+0080-U+00FF.  On the UTF-8 bytes of a string
    those are the bytes 9, 32-126 and 128-195: a character above U+00FF
    has a lead byte of 196 or more. *)
Definition header_byte_ok (c : ascii) : bool :=
  let n := nat_of_ascii c in
  ((n =? 9) || ((32 <=? n) && (n <=? 126)) || ((128 <=? n) && (n <=? 195)))%nat.

Fixpoint header_value_ok (s : string) : bool :=
  match s with
  | EmptyString => true
  | String c s' => header_byte_ok c && header_value_ok s'
  end.

Definition services : Services World Session Headers SettingsData := {|
  DisableProjectService_call := fun projectP w =>
    (inr {| name := "acme/" ++ projectP |}, ("disabled " ++ projectP)%string :: w);
  UpdateProjectSettings_validate := validate;
  UpdateProjectSettings_call := fun projectP data w =>
    (inr (data_autoDeploy data), ("updated " ++ projectP)%string :: w);
  setRequestSuccessMessage := fun _ text w => (inr text, w);
  setToastMessageCookie := fun session w => (inr [("Set-Cookie", session)], w);
  Location_accepted := header_value_ok
|}.

Definition params : Params :=
  [("organizationSlug", Some "acme"); ("projectP", Some "p1")].

Definition params_without_project : Params :=
  [("organizationSlug", Some "acme")].

(** Route parameters as a request to [/orgs/%E6%97%A5%E6%9C%AC/...] and
    one to [/orgs/acme/projects/p%0A1/...] give them. *)
Definition params_wide_slug : Params :=
  [("organizationSlug", Some "日本"); ("projectP", Some "p1")].

Definition params_line_feed : Params :=
  [("organizationSlug", Some "acme");
   ("projectP", Some (String "p" (String "010"%char "1")))].

Definition request_of (formPayload : FormData) : Request :=
  {| request_formData := inr formPayload; request_headers := [] |}.

(** The form of the specification's example. *)
Definition save_form : FormData :=
  [("action", FString "save"); ("autoDeploy", FString "yes");
   ("branch", FString "main"); ("buildCommand", FString "npm install");
   ("startCommand", FString "npm start"); ("envVars[FOO]", FString "bar")].

Definition save_later_form : FormData :=
  [("action", FString "save"); ("autoDeploy", FString "no");
   ("branch", FString "main"); ("envVars[FOO]", FString "bar")].

Definition invalid_form : FormData :=
  [("action", FString "save"); ("autoDeploy", FString "yes");
   ("branch", FString ""); ("envVars[FOO]", FString "bar")].

Definition destroy_form : FormData :=
  [("action", FString "destroy"); ("autoDeploy", FString "yes");
   ("branch", FString "main")].

Definition no_action_form : FormData :=
  [("branch", FString "main"); ("envVars[FOO]", FString "bar")].

End Sample.

(** A project with two variables, and the states the page is rendered
    in. *)
Module SamplePage.

Definition current : CurrentProject :=
  {| project := {| autoDeploy := true; branch := "main";
                   buildCommand := "npm install"; startCommand := "npm start" |};
     needsEnvVars := true;
     envVars := [{| key := "GITHUB_REPOSITORY"; value := "triggerdotdev/trigger.dev" |};
                 {| key := "API_KEY"; value := "" |}] |}.

Definition idle : Transition :=
  {| transition_state := "idle"; transition_type := "idle";
     transition_submission := None |}.

Definition saving : Transition :=
  {| transition_state := "submitting"; transition_type := "actionSubmission";
     transition_submission := Some {| method := "POST" |} |}.

Definition rejected : option Body :=
  Some (validationError [{| path := ["API_KEY"]; message := "Required" |}]).

End SamplePage.

(** Collaborators that fail: the disable service and the flash-message
    helper throw, the update service persists and returns. *)
Module SampleFailures.

Definition services
  : Services Sample.World Sample.Session Sample.Headers Sample.SettingsData := {|
  DisableProjectService_call := fun projectP w =>
    (inl (Rejected "database unavailable"), w);
  UpdateProjectSettings_validate := Sample.validate;
  UpdateProjectSettings_call := fun projectP data w =>
    (inr (Sample.data_autoDeploy data), ("updated " ++ projectP)%string :: w);
  setRequestSuccessMessage := fun _ text w =>
    (inl (Rejected "session store unavailable"), w);
  setToastMessageCookie := fun session w => (inr [("Set-Cookie", session)], w);
  Location_accepted := Sample.header_value_ok
|}.

Definition unreadable_request : Request :=
  {| request_formData := inl (Rejected "malformed body"); request_headers := [] |}.

(** A form with two [action] fields. *)
Definition two_actions_form : FormData :=
  [("action", FString "save"); ("branch", FString "main");
   ("action", FString "destroy")].

End SampleFailures.

Example array_index_ex :
  map JSObject.array_index ["0"; "7"; "42"; "007"; ""; "4294967294"; "4294967295"; "1a"; "envVars[1]"]
  = [Some 0%N; Some 7%N; Some 42%N; None; None; Some 4294967294%N; None; None; None].
Proof. reflexivity. Qed.

Example fromEntries_order :
  JSObject.fromEntries [("b", 1); ("10", 2); ("a", 3); ("2", 4); ("b", 5)]
  = [("2", 4); ("10", 2); ("b", 5); ("a", 3)].
Proof. reflexivity. Qed.

Example envVars_of_comment :
  envVars_of (JSObject.fromEntries
    [("envVars[GITHUB_REPOSITORY]", "triggerdotdev/trigger.dev");
     ("envVars[OTHER_ENV_VAR]", "bar");
     ("autoDeploy", "yes");
     ("buildCommand", "npm start")])
  = [("GITHUB_REPOSITORY", "triggerdotdev/trigger.dev"); ("OTHER_ENV_VAR", "bar")].
Proof. reflexivity. Qed.

Example envVarKey_ex :
  map envVarKey ["envVars[FOO]"; "envVars[FOO"; "envVars[A]B]"; "envVars[]"; "envVars[envVars[A]"]
  = ["FOO"; "FOO"; "AB]"; ""; "envVars[A"].
Proof. reflexivity. Qed.

Example spec_name_ex :
  map spec_name ["envVars[FOO]"; "envVars[A]B]"; "envVars[]"] = ["FOO"; "A]B"; ""].
Proof. reflexivity. Qed.

(** ** Strings *)
Module JSStringFacts.
Import JSString.

Lemma replace_unfold pat rep s :
  replace pat rep s =
  if String.prefix pat s then (rep ++ drop (String.length pat) s)%string
  else match s with
       | EmptyString => EmptyString
       | String c s' => String c (replace pat rep s')
       end.
Proof. destruct s; reflexivity. Qed.

Lemma includes_unfold s pat :
  includes s pat =
  if String.prefix pat s then true
  else match s with
       | EmptyString => false
       | String _ s' => includes s' pat
       end.
Proof. destruct s; reflexivity. Qed.

Lemma replace_prefixed pat s :
  startsWith s pat = true -> replace pat "" s = drop (String.length pat) s.
Proof.
  unfold startsWith. intros H. rewrite replace_unfold, H. reflexivity.
Qed.

Lemma prefix_single a c s :
  String.prefix (String a EmptyString) (String c s) =
  if ascii_dec a c then true else false.
Proof.
  cbn [String.prefix]. destruct (ascii_dec a c); [destruct s|]; reflexivity.
Qed.

Lemma replace_bracket_end name :
  includes name "]" = false -> replace "]" "" (name ++ "]")%string = name.
Proof.
  induction name as [|c name IH]; intros H.
  - reflexivity.
  - rewrite includes_unfold, prefix_single in H.
    change ((String c name) ++ "]")%string with (String c (name ++ "]")%string).
    rewrite replace_unfold, prefix_single.
    destruct (ascii_dec "]" c) as [e|ne].
    + discriminate H.
    + f_equal. apply IH. exact H.
Qed.

Lemma startsWith_wrapped name : startsWith (wrapped name) "envVars[" = true.
Proof. destruct name; reflexivity. Qed.

End JSStringFacts.

Lemma envVarKey_prefixed key :
  JSString.startsWith key "envVars[" = true ->
  envVarKey key = JSString.replace "]" "" (JSString.drop 8 key).
Proof.
  intros H. unfold envVarKey.
  rewrite (JSStringFacts.replace_prefixed _ _ H). reflexivity.
Qed.

Lemma envVarKey_wrapped name :
  JSString.includes name "]" = false -> envVarKey (wrapped name) = name.
Proof.
  intros H. rewrite envVarKey_prefixed by apply JSStringFacts.startsWith_wrapped.
  change (JSString.drop 8 (wrapped name)) with (name ++ "]")%string.
  apply JSStringFacts.replace_bracket_end, H.
Qed.

(** ** Objects: reads after writes, and key sets *)
Module JSObjectFacts.
Import JSObject.

Section Facts.
Context {V : Type}.
Implicit Types (o : t V) (k : string) (v : V).

Lemma get_none_keys k o : get k o = None <-> ~ In k (keys o).
Proof.
  induction o as [|[k' v'] o IH]; simpl.
  - tauto.
  - destruct (String.eqb_spec k' k) as [->|ne].
    + split; [discriminate | intros H; exfalso; apply H; now left].
    + rewrite IH. tauto.
Qed.

Lemma has_false_keys k o : has k o = false <-> ~ In k (keys o).
Proof.
  unfold has. rewrite <- get_none_keys.
  destruct (get k o); split; congruence.
Qed.

Lemma get_update k v o k' :
  get k' (update k v o) =
  if String.eqb k k' then (if has k o then Some v else None) else get k' o.
Proof.
  unfold has.
  induction o as [|[k0 v0] o IH]; simpl.
  - destruct (String.eqb k k'); reflexivity.
  - destruct (String.eqb_spec k0 k) as [->|ne0]; simpl.
    + destruct (String.eqb k k'); reflexivity.
    + rewrite IH. destruct (String.eqb_spec k k') as [->|ne].
      * destruct (String.eqb_spec k0 k'); [contradiction | reflexivity].
      * reflexivity.
Qed.

Lemma get_insert_index n k v o k' :
  get k o = None ->
  get k' (insert_index n k v o) = if String.eqb k k' then Some v else get k' o.
Proof.
  induction o as [|[k0 v0] o IH]; simpl; intros Hk.
  - reflexivity.
  - destruct (String.eqb_spec k0 k) as [->|ne0]; [discriminate|].
    destruct (array_index k0) as [m|]; [destruct (m <? n)%N|]; simpl; try reflexivity.
    rewrite (IH Hk).
    destruct (String.eqb_spec k k') as [->|ne].
    + destruct (String.eqb_spec k0 k'); [contradiction | reflexivity].
    + reflexivity.
Qed.

Lemma get_push k v o k' :
  get k o = None ->
  get k' (o ++ [(k, v)]) = if String.eqb k k' then Some v else get k' o.
Proof.
  induction o as [|[k0 v0] o IH]; simpl; intros Hk.
  - reflexivity.
  - destruct (String.eqb_spec k0 k) as [->|ne0]; [discriminate|].
    rewrite (IH Hk).
    destruct (String.eqb_spec k k') as [->|ne].
    + destruct (String.eqb_spec k0 k'); [contradiction | reflexivity].
    + reflexivity.
Qed.

(** Reading [k'] after writing [k]. *)
Lemma get_set k v o k' :
  get k' (set k v o) = if String.eqb k k' then Some v else get k' o.
Proof.
  unfold set. destruct (has k o) eqn:Hh.
  - rewrite get_update, Hh. reflexivity.
  - assert (Hk : get k o = None)
      by (unfold has in Hh; destruct (get k o); [discriminate | reflexivity]).
    destruct (array_index k).
    + apply get_insert_index, Hk.
    + apply get_push, Hk.
Qed.

Lemma keys_update k v o : keys (update k v o) = keys o.
Proof.
  induction o as [|[k0 v0] o IH]; simpl; [reflexivity|].
  destruct (String.eqb k0 k); simpl; [reflexivity | now rewrite IH].
Qed.

Lemma keys_insert_index n k v o :
  Permutation (k :: keys o) (keys (insert_index n k v o)).
Proof.
  induction o as [|[k0 v0] o IH]; simpl; [reflexivity|].
  destruct (array_index k0) as [m|]; [destruct (m <? n)%N|]; simpl; try reflexivity.
  rewrite <- IH. apply perm_swap.
Qed.

Lemma keys_set k v o :
  Permutation (keys (set k v o)) (if has k o then keys o else k :: keys o).
Proof.
  unfold set. destruct (has k o).
  - now rewrite keys_update.
  - destruct (array_index k).
    + symmetry. apply keys_insert_index.
    + unfold keys. rewrite map_app. simpl.
      symmetry. apply Permutation_cons_append.
Qed.

Lemma NoDup_keys_set k v o : NoDup (keys o) -> NoDup (keys (set k v o)).
Proof.
  intros H. eapply Permutation_NoDup; [symmetry; apply keys_set|].
  destruct (has k o) eqn:Hh; [exact H|].
  constructor; [now apply has_false_keys | exact H].
Qed.

Lemma NoDup_keys_fold (f : string -> string) (l : list (string * V)) o :
  NoDup (keys o) ->
  NoDup (keys (fold_left (fun o kv => set (f (fst kv)) (snd kv) o) l o)).
Proof.
  revert o. induction l as [|[k v] l IH]; simpl; intros o H; [exact H|].
  apply IH, NoDup_keys_set, H.
Qed.

(** Reading after a run of writes: the last write to the key wins. *)
Lemma get_fold (f : string -> string) (l : list (string * V)) o n :
  get n (fold_left (fun o kv => set (f (fst kv)) (snd kv) o) l o) =
  match lookup_last f n l with
  | Some v => Some v
  | None => get n o
  end.
Proof.
  revert o. induction l as [|[k v] l IH]; simpl; intros o; [reflexivity|].
  rewrite IH, get_set.
  destruct (lookup_last f n l); [reflexivity|].
  destruct (String.eqb (f k) n); reflexivity.
Qed.

Lemma get_fromEntries (l : list (string * V)) k :
  get k (fromEntries l) = lookup_last (fun x => x) k l.
Proof.
  unfold fromEntries. rewrite (get_fold (fun x => x)). simpl.
  destruct (lookup_last _ k l); reflexivity.
Qed.

Lemma NoDup_keys_fromEntries (l : list (string * V)) : NoDup (keys (fromEntries l)).
Proof. apply (NoDup_keys_fold (fun x => x)). constructor. Qed.

End Facts.
End JSObjectFacts.

(** ** The last pair sent to a name *)
Section LookupLast.
Context {V : Type}.
Variable f : string -> string.
Implicit Types (l : list (string * V)) (n k : string).

Lemma lookup_last_Some_In n l v :
  lookup_last f n l = Some v -> exists k, In (k, v) l /\ f k = n.
Proof.
  induction l as [|[k0 v0] l IH]; simpl; [discriminate|].
  destruct (lookup_last f n l) as [v'|].
  - intros [= ->]. destruct (IH eq_refl) as (k & Hin & Hk). eauto.
  - destruct (String.eqb_spec (f k0) n) as [e|ne]; [|discriminate].
    intros [= ->]. eauto.
Qed.

Lemma lookup_last_In n l k v :
  In (k, v) l -> f k = n -> exists v', lookup_last f n l = Some v'.
Proof.
  induction l as [|[k0 v0] l IH]; simpl; [tauto|].
  intros [[= -> ->]|Hin] Hk.
  - destruct (lookup_last f n l); [eauto|].
    rewrite Hk, String.eqb_refl. eauto.
  - destruct (IH Hin Hk) as (v' & ->). eauto.
Qed.

Lemma lookup_last_None n l :
  lookup_last f n l = None <-> (forall k, In k (map fst l) -> f k <> n).
Proof.
  induction l as [|[k0 v0] l IH]; simpl.
  - split; [intros _ k [] | reflexivity].
  - destruct (lookup_last f n l) as [v'|].
    + split; [discriminate|]. intros H.
      destruct IH as [_ IH]. discriminate IH. intros k Hk. apply H. now right.
    + destruct IH as [IH _]. specialize (IH eq_refl).
      destruct (String.eqb_spec (f k0) n) as [e|ne].
      * split; [discriminate|]. intros H. exfalso. apply (H k0); auto.
      * split; [|reflexivity]. intros _ k [<-|Hk]; auto.
Qed.

Lemma lookup_last_app n l1 l2 :
  lookup_last f n (l1 ++ l2) =
  match lookup_last f n l2 with
  | Some v => Some v
  | None => lookup_last f n l1
  end.
Proof.
  induction l1 as [|[k0 v0] l1 IH]; simpl.
  - destruct (lookup_last f n l2); reflexivity.
  - rewrite IH. destruct (lookup_last f n l2); reflexivity.
Qed.

(** When a single key [K] of an object is sent to [n], the last pair
    sent to [n] is the property [K]. *)
Lemma lookup_last_filter_unique (P : string -> bool) n K l :
  NoDup (map fst l) ->
  (forall k, In k (map fst l) -> P k = true -> f k = n -> k = K) ->
  P K = true -> f K = n ->
  lookup_last f n (filter (fun kv => P (fst kv)) l) = JSObject.get K l.
Proof.
  intros Hnd Hu HP HK.
  induction l as [|[k0 v0] l IH]; simpl; [reflexivity|].
  simpl in Hnd. apply NoDup_cons_iff in Hnd as [Hnotin Hnd'].
  assert (IH' := IH Hnd' (fun k Hk => Hu k (or_intror Hk))).
  destruct (P k0) eqn:HP0; simpl.
  - rewrite IH'. destruct (String.eqb_spec k0 K) as [->|ne].
    + apply JSObjectFacts.get_none_keys in Hnotin. rewrite Hnotin.
      rewrite HK, String.eqb_refl. reflexivity.
    + destruct (String.eqb_spec (f k0) n) as [e|ne'].
      * exfalso. apply ne. apply Hu; simpl; auto.
      * destruct (JSObject.get K l); reflexivity.
  - rewrite IH'. destruct (String.eqb_spec k0 K) as [->|ne]; [congruence | reflexivity].
Qed.

End LookupLast.

(** ** The reshaped environment variables *)
Section ReshapeFacts.
Context {V : Type}.
Implicit Types (formEntries : JSObject.t V) (l : list (string * V)).

(** A name of the output holds the value of the last [envVars[]-prefixed
    property, in enumeration order, that is reshaped to it. *)
Lemma get_envVars_of formEntries n :
  JSObject.get n (envVars_of formEntries) =
  lookup_last envVarKey n (filter is_envVar_entry formEntries).
Proof.
  unfold envVars_of, JSObject.entries.
  change (@envVars_step V)
    with (fun (o : JSObject.t V) kv => JSObject.set (envVarKey (fst kv)) (snd kv) o).
  rewrite (JSObjectFacts.get_fold envVarKey). simpl.
  destruct (lookup_last _ n _); reflexivity.
Qed.

Lemma keys_fromEntries_incl l k :
  In k (JSObject.keys (JSObject.fromEntries l)) -> In k (map fst l).
Proof.
  intros Hin. destruct (in_dec string_dec k (map fst l)) as [H|H]; [exact H|].
  exfalso. revert Hin. apply JSObjectFacts.get_none_keys.
  rewrite JSObjectFacts.get_fromEntries. apply lookup_last_None.
  intros k' Hk' ->. contradiction.
Qed.

Lemma lookup_last_occurrence key l x :
  last_occurrence key l x -> lookup_last (fun k => k) key l = Some x.
Proof.
  intros (l1 & l2 & -> & Hnot).
  rewrite lookup_last_app. simpl.
  assert (H : lookup_last (fun k => k) key l2 = None).
  { apply lookup_last_None. intros k Hk ->. contradiction. }
  rewrite H, String.eqb_refl. reflexivity.
Qed.

Lemma last_occurrence_of_NoDup key l x :
  NoDup (map fst l) -> In (key, x) l -> last_occurrence key l x.
Proof.
  intros Hnd Hin. apply in_split in Hin as (l1 & l2 & ->).
  exists l1, l2. split; [reflexivity|].
  rewrite map_app in Hnd. simpl in Hnd.
  apply NoDup_remove_2 in Hnd. intros H. apply Hnd, in_or_app. now right.
Qed.

(** For a bracket-free name that only the field [envVars[name]] is
    reshaped to, the output holds what the form's last such field holds. *)
Lemma get_envVars_wrapped l name :
  JSString.includes name "]" = false ->
  only_field_for name l ->
  JSObject.get name (envVars_of (JSObject.fromEntries l)) =
  lookup_last (fun k => k) (wrapped name) l.
Proof.
  intros Hname Honly.
  rewrite get_envVars_of.
  rewrite <- JSObjectFacts.get_fromEntries.
  apply (lookup_last_filter_unique envVarKey
           (fun k => JSString.startsWith k "envVars[")).
  - apply JSObjectFacts.NoDup_keys_fromEntries.
  - intros k Hk. apply Honly, keys_fromEntries_incl, Hk.
  - apply JSStringFacts.startsWith_wrapped.
  - apply envVarKey_wrapped, Hname.
Qed.

Lemma only_field_for_perm name l l' :
  Permutation l l' -> only_field_for name l -> only_field_for name l'.
Proof.
  intros Hp H k Hk. apply H.
  eapply Permutation_in; [symmetry; apply Permutation_map, Hp | exact Hk].
Qed.

End ReshapeFacts.

(** ** Runs of the handler *)

Lemma is_destroy_false action :
  is_destroy action = false <-> action <> Some (FString "destroy").
Proof.
  destruct action as [[s|f]|]; simpl; try (split; [discriminate | reflexivity]).
  destruct (String.eqb_spec s "destroy") as [->|ne]; split; congruence.
Qed.

Lemma is_destroy_true action :
  is_destroy action = true <-> action = Some (FString "destroy").
Proof.
  destruct action as [[s|f]|]; simpl; try (split; discriminate).
  destruct (String.eqb_spec s "destroy") as [->|ne]; split; congruence.
Qed.

Lemma prefix_app s t : String.prefix s (s ++ t)%string = true.
Proof.
  induction s as [|c s IH]; simpl.
  - destruct t; reflexivity.
  - destruct (ascii_dec c c); [exact IH | contradiction].
Qed.

Lemma includes_middle a s t : JSString.includes (a ++ s ++ t)%string s = true.
Proof.
  induction a as [|c a IH].
  - simpl. rewrite JSStringFacts.includes_unfold, prefix_app. reflexivity.
  - change (String c a ++ s ++ t)%string with (String c (a ++ s ++ t)%string).
    rewrite JSStringFacts.includes_unfold.
    destruct (String.prefix s _); [reflexivity | exact IH].
Qed.

Lemma parseParams_ok params p o :
  parseParams params = inr (p, o) <->
  JSObject.get "projectP" params = Some (Some p) /\
  JSObject.get "organizationSlug" params = Some (Some o).
Proof.
  unfold parseParams, z_string.
  destruct (JSObject.get "projectP" params) as [[p'|]|];
    destruct (JSObject.get "organizationSlug" params) as [[o'|]|];
    simpl; split; try discriminate; try (intros [H1 H2]; discriminate);
    try (intros [= -> ->]; auto); intros [[= ->] [= ->]]; reflexivity.
Qed.

Lemma parseParams_fail params :
  (~ exists p o, JSObject.get "projectP" params = Some (Some p) /\
                 JSObject.get "organizationSlug" params = Some (Some o)) ->
  exists issues, issues <> [] /\ parseParams params = inl (ZodError issues).
Proof.
  intros H. unfold parseParams, z_string.
  destruct (JSObject.get "projectP" params) as [[p'|]|];
    destruct (JSObject.get "organizationSlug" params) as [[o'|]|];
    simpl; try (eexists; split; [|reflexivity]; discriminate).
  exfalso. apply H. eauto.
Qed.

Section Runs.
Context {World Session Headers Data : Type}.
Variable svc : Services World Session Headers Data.
Implicit Types (params : Params) (request : Request) (w : World).

Local Ltac unfold_action :=
  unfold action, redirect_to, bind, lift, call, log, ret, start; simpl.

(** Malformed route parameters: the handler throws at once. *)
Lemma action_params_throw params request w e :
  parseParams params = inl e ->
  action svc params request (start w) = (Threw e, start w).
Proof. intros H. unfold_action. rewrite H. reflexivity. Qed.

(** The body of the request cannot be read. *)
Lemma action_formData_throw params request w p o e :
  parseParams params = inr (p, o) ->
  request_formData request = inl e ->
  action svc params request (start w) =
  (Threw e, {| world := w; trace := [EvFormData (inl e)] |}).
Proof. intros H1 H2. unfold_action. rewrite H1, H2. reflexivity. Qed.

(** The validation-failure run. *)
Lemma action_payloadError_run params request w p o formPayload errors :
  parseParams params = inr (p, o) ->
  request_formData request = inr formPayload ->
  is_destroy (FormData_get "action" formPayload) = false ->
  UpdateProjectSettings_validate svc (JSObject.fromEntries formPayload)
    (envVars_of (JSObject.fromEntries formPayload)) = payloadError errors ->
  action svc params request (start w) =
  (Returned (typedjson (validationError errors) 422 None),
   {| world := w;
      trace := [EvFormData (inr formPayload);
                EvConsoleLog (JSObject.fromEntries formPayload)
                  (envVars_of (JSObject.fromEntries formPayload));
                EvValidate (JSObject.fromEntries formPayload)
                  (envVars_of (JSObject.fromEntries formPayload))
                  (payloadError errors)] |}).
Proof.
  intros H1 H2 H3 H4. unfold_action. rewrite H1, H2. simpl.
  rewrite H3, H4. reflexivity.
Qed.

(** The destroy run when every collaborator returns: what is left is
    whether [redirect] takes the URL. *)
Lemma action_destroy_outcome params request w p o formPayload
      project w1 session w2 headers w3 :
  parseParams params = inr (p, o) ->
  request_formData request = inr formPayload ->
  is_destroy (FormData_get "action" formPayload) = true ->
  DisableProjectService_call svc p w = (inr project, w1) ->
  setRequestSuccessMessage svc request (removed_message project) w1 = (inr session, w2) ->
  setToastMessageCookie svc session w2 = (inr headers, w3) ->
  action svc params request (start w) =
  ((if Location_accepted svc ("/orgs/" ++ o ++ "/projects")
    then Returned (redirect ("/orgs/" ++ o ++ "/projects") (Some headers))
    else Threw (TypeError "Location" ("/orgs/" ++ o ++ "/projects"))),
   {| world := w3;
      trace := [EvFormData (inr formPayload);
                EvDisable p (inr project);
                EvSuccessMessage request (removed_message project) (inr session);
                EvToastCookie session (inr headers)] |}).
Proof.
  intros H1 H2 H3 H4 H5 H6. unfold_action. rewrite H1, H2. simpl.
  rewrite H3. simpl. rewrite H4. simpl. rewrite H5. simpl. rewrite H6. simpl.
  destruct (Location_accepted svc _); reflexivity.
Qed.

Lemma action_destroy_run params request w p o formPayload
      project w1 session w2 headers w3 :
  parseParams params = inr (p, o) ->
  request_formData request = inr formPayload ->
  is_destroy (FormData_get "action" formPayload) = true ->
  DisableProjectService_call svc p w = (inr project, w1) ->
  setRequestSuccessMessage svc request (removed_message project) w1 = (inr session, w2) ->
  setToastMessageCookie svc session w2 = (inr headers, w3) ->
  Location_accepted svc ("/orgs/" ++ o ++ "/projects") = true ->
  action svc params request (start w) =
  (Returned (redirect ("/orgs/" ++ o ++ "/projects") (Some headers)),
   {| world := w3;
      trace := [EvFormData (inr formPayload);
                EvDisable p (inr project);
                EvSuccessMessage request (removed_message project) (inr session);
                EvToastCookie session (inr headers)] |}).
Proof.
  intros H1 H2 H3 H4 H5 H6 H7.
  rewrite (action_destroy_outcome _ _ _ _ _ _ _ _ _ _ _ _ H1 H2 H3 H4 H5 H6), H7.
  reflexivity.
Qed.

(** The update run when validation succeeds and every collaborator
    returns. *)
Lemma action_success_outcome params request w p o formPayload data
      isDeploying w1 session w2 headers w3 :
  parseParams params = inr (p, o) ->
  request_formData request = inr formPayload ->
  is_destroy (FormData_get "action" formPayload) = false ->
  UpdateProjectSettings_validate svc (JSObject.fromEntries formPayload)
    (envVars_of (JSObject.fromEntries formPayload)) = success data ->
  UpdateProjectSettings_call svc p data w = (inr isDeploying, w1) ->
  setRequestSuccessMessage svc request (updated_message isDeploying) w1 = (inr session, w2) ->
  setToastMessageCookie svc session w2 = (inr headers, w3) ->
  action svc params request (start w) =
  ((if isDeploying
    then if Location_accepted svc ("/orgs/" ++ o ++ "/projects/" ++ p)
         then Returned (redirect ("/orgs/" ++ o ++ "/projects/" ++ p) (Some headers))
         else Threw (TypeError "Location" ("/orgs/" ++ o ++ "/projects/" ++ p))
    else Returned (typedjson successMarker 200 (Some headers))),
   {| world := w3;
      trace := [EvFormData (inr formPayload);
                EvConsoleLog (JSObject.fromEntries formPayload)
                  (envVars_of (JSObject.fromEntries formPayload));
                EvValidate (JSObject.fromEntries formPayload)
                  (envVars_of (JSObject.fromEntries formPayload)) (success data);
                EvUpdate p data (inr isDeploying);
                EvSuccessMessage request (updated_message isDeploying) (inr session);
                EvToastCookie session (inr headers)] |}).
Proof.
  intros H1 H2 H3 H4 H5 H6 H7. unfold_action. rewrite H1, H2. simpl.
  rewrite H3, H4. simpl. rewrite H5. simpl. rewrite H6. simpl.
  destruct isDeploying; simpl; rewrite H7; simpl; [|reflexivity].
  destruct (Location_accepted svc _); reflexivity.
Qed.

Lemma action_success_run params request w p o formPayload data
      isDeploying w1 session w2 headers w3 :
  parseParams params = inr (p, o) ->
  request_formData request = inr formPayload ->
  is_destroy (FormData_get "action" formPayload) = false ->
  UpdateProjectSettings_validate svc (JSObject.fromEntries formPayload)
    (envVars_of (JSObject.fromEntries formPayload)) = success data ->
  UpdateProjectSettings_call svc p data w = (inr isDeploying, w1) ->
  setRequestSuccessMessage svc request (updated_message isDeploying) w1 = (inr session, w2) ->
  setToastMessageCookie svc session w2 = (inr headers, w3) ->
  (isDeploying = true ->
   Location_accepted svc ("/orgs/" ++ o ++ "/projects/" ++ p) = true) ->
  action svc params request (start w) =
  (Returned (if isDeploying
             then redirect ("/orgs/" ++ o ++ "/projects/" ++ p) (Some headers)
             else typedjson successMarker 200 (Some headers)),
   {| world := w3;
      trace := [EvFormData (inr formPayload);
                EvConsoleLog (JSObject.fromEntries formPayload)
                  (envVars_of (JSObject.fromEntries formPayload));
                EvValidate (JSObject.fromEntries formPayload)
                  (envVars_of (JSObject.fromEntries formPayload)) (success data);
                EvUpdate p data (inr isDeploying);
                EvSuccessMessage request (updated_message isDeploying) (inr session);
                EvToastCookie session (inr headers)] |}).
Proof.
  intros H1 H2 H3 H4 H5 H6 H7 H8.
  rewrite (action_success_outcome _ _ _ _ _ _ _ _ _ _ _ _ _ H1 H2 H3 H4 H5 H6 H7).
  destruct isDeploying; [rewrite (H8 eq_refl)|]; reflexivity.
Qed.

(** Whatever the collaborators answer, a destroy submission reaches the
    disable service once and neither the validator nor the update
    service. *)
Lemma action_destroy_calls params request w p o formPayload :
  parseParams params = inr (p, o) ->
  request_formData request = inr formPayload ->
  is_destroy (FormData_get "action" formPayload) = true ->
  let tr := trace (snd (action svc params request (start w))) in
  disable_calls tr = [p] /\ update_calls tr = [] /\ validate_calls tr = [].
Proof.
  intros H1 H2 H3. unfold_action. rewrite H1, H2. simpl. rewrite H3. simpl.
  destruct (DisableProjectService_call svc p w) as [[e|project] w1]; simpl; auto.
  destruct (setRequestSuccessMessage svc request (removed_message project) w1)
    as [[e|session] w2]; simpl; auto.
  destruct (setToastMessageCookie svc session w2) as [[e|headers] w3]; simpl; auto.
  destruct (Location_accepted svc _); simpl; auto.
Qed.

(** Whatever the collaborators answer, a submission that is not a destroy
    is validated once, never reaches the disable service, and reaches the
    update service once exactly when validation succeeds. *)
Lemma action_update_calls params request w p o formPayload :
  parseParams params = inr (p, o) ->
  request_formData request = inr formPayload ->
  is_destroy (FormData_get "action" formPayload) = false ->
  let formEntries := JSObject.fromEntries formPayload in
  let envVars := envVars_of formEntries in
  let tr := trace (snd (action svc params request (start w))) in
  validate_calls tr = [(formEntries, envVars)] /\
  disable_calls tr = [] /\
  update_calls tr =
    match UpdateProjectSettings_validate svc formEntries envVars with
    | payloadError _ => []
    | success data => [(p, data)]
    end.
Proof.
  intros H1 H2 H3. unfold_action. rewrite H1, H2. simpl. rewrite H3. simpl.
  destruct (UpdateProjectSettings_validate svc _ _) as [errors|data]; simpl; auto.
  destruct (UpdateProjectSettings_call svc p data w) as [[e|isDeploying] w1]; simpl; auto.
  destruct (setRequestSuccessMessage svc request (updated_message isDeploying) w1)
    as [[e|session] w2]; simpl; auto.
  destruct isDeploying; simpl;
    destruct (setToastMessageCookie svc session w2) as [[e|headers] w3]; simpl; auto.
  destruct (Location_accepted svc _); simpl; auto.
Qed.

End Runs.

Lemma removed_message_names project :
  JSString.includes (removed_message project) (name project) = true.
Proof. unfold removed_message. apply includes_middle. Qed.

(** ** The claims about the handler *)
Section HandlerClaims.
Context {World Session Headers Data : Type}.
Variable svc : Services World Session Headers Data.
Implicit Types (params : Params) (request : Request) (w : World).

(** C1: a submission whose [action] is not "destroy" and whose payload
    the validator rejects is answered with status 422 and the validator's
    list of field-path/message errors, which is not empty (as the
    validator's contract has it), and the update service is never
    called. *)
Theorem C1_invalid_payload_answers_422 params request w p o formPayload errors :
  validator_reports_issues svc ->
  parseParams params = inr (p, o) ->
  request_formData request = inr formPayload ->
  FormData_get "action" formPayload <> Some (FString "destroy") ->
  UpdateProjectSettings_validate svc (JSObject.fromEntries formPayload)
    (envVars_of (JSObject.fromEntries formPayload)) = payloadError errors ->
  let run := action svc params request (start w) in
  fst run = Returned (typedjson (validationError errors) 422 None) /\
  errors <> [] /\
  update_calls (trace (snd run)) = [].
Proof.
  intros Hcontract Hp Hf Hd Hv run. subst run.
  apply is_destroy_false in Hd.
  rewrite (action_payloadError_run svc _ _ w _ _ _ _ Hp Hf Hd Hv). simpl.
  repeat split. exact (Hcontract _ _ _ Hv).
Qed.

(** C3 (amended): a submission whose [action] is "destroy" calls the
    disable service once with the project identifier and calls neither
    the validator nor the update service; the collaborators returning,
    the flash text contains the name of the project the disable service
    returned, and when [/orgs/{organizationSlug}/projects] is accepted as
    a [Location] header value the handler returns the redirect to it,
    with the cookie headers encoding that flash text. *)
Theorem C3_destroy_disables_and_redirects params request w p o formPayload :
  parseParams params = inr (p, o) ->
  request_formData request = inr formPayload ->
  FormData_get "action" formPayload = Some (FString "destroy") ->
  let run := action svc params request (start w) in
  disable_calls (trace (snd run)) = [p] /\
  update_calls (trace (snd run)) = [] /\
  validate_calls (trace (snd run)) = [] /\
  forall project w1 session w2 headers w3,
    DisableProjectService_call svc p w = (inr project, w1) ->
    setRequestSuccessMessage svc request (removed_message project) w1 = (inr session, w2) ->
    setToastMessageCookie svc session w2 = (inr headers, w3) ->
    flash_calls (trace (snd run)) = [removed_message project] /\
    cookie_calls (trace (snd run)) = [session] /\
    JSString.includes (removed_message project) (name project) = true /\
    (Location_accepted svc ("/orgs/" ++ o ++ "/projects") = true ->
     fst run = Returned (redirect ("/orgs/" ++ o ++ "/projects") (Some headers))).
Proof.
  intros Hp Hf Hd run. subst run.
  apply is_destroy_true in Hd.
  destruct (action_destroy_calls svc _ _ w _ _ _ Hp Hf Hd) as (H1 & H2 & H3).
  repeat (split; [assumption|]).
  intros project w1 session w2 headers w3 H4 H5 H6.
  rewrite (action_destroy_outcome svc _ _ _ _ _ _ _ _ _ _ _ _ Hp Hf Hd H4 H5 H6). simpl.
  repeat (split; [reflexivity|]). split; [apply removed_message_names|].
  intros ->. reflexivity.
Qed.

(** C6: for the example form, the validator receives the flat fields of
    the form, untouched, together with the mapping [{FOO: "bar"}], and
    when it succeeds the update service is called with the project
    identifier and the validated object. *)
Theorem C6_example_reaches_validator params request w p o :
  parseParams params = inr (p, o) ->
  request_formData request =
    inr [("action", FString "save"); ("autoDeploy", FString "yes");
         ("branch", FString "main"); ("buildCommand", FString "npm install");
         ("startCommand", FString "npm start"); ("envVars[FOO]", FString "bar")] ->
  let formEntries : FormEntries :=
    [("action", FString "save"); ("autoDeploy", FString "yes");
     ("branch", FString "main"); ("buildCommand", FString "npm install");
     ("startCommand", FString "npm start"); ("envVars[FOO]", FString "bar")] in
  let envVars : EnvVars := [("FOO", FString "bar")] in
  let run := action svc params request (start w) in
  validate_calls (trace (snd run)) = [(formEntries, envVars)] /\
  forall data,
    UpdateProjectSettings_validate svc formEntries envVars = success data ->
    update_calls (trace (snd run)) = [(p, data)].
Proof.
  intros Hp Hf formEntries envVars run. subst run.
  destruct (action_update_calls svc _ _ w _ _ _ Hp Hf eq_refl) as (H1 & _ & H3).
  split; [exact H1|].
  intros data Hv. rewrite H3.
  change (JSObject.fromEntries _) with formEntries.
  change (envVars_of formEntries) with envVars.
  rewrite Hv. reflexivity.
Qed.

(** C8: when the route parameters do not hold both a string [projectP]
    and a string [organizationSlug], the handler throws the schema error
    before anything else: the form body is not read and no collaborator
    is called. *)
Theorem C8_malformed_params_fail_fast params request w :
  (~ exists p o, JSObject.get "projectP" params = Some (Some p) /\
                 JSObject.get "organizationSlug" params = Some (Some o)) ->
  let run := action svc params request (start w) in
  (exists issues, issues <> [] /\ fst run = Threw (ZodError issues)) /\
  trace (snd run) = [] /\
  world (snd run) = w.
Proof.
  intros H run. subst run.
  destruct (parseParams_fail params H) as (issues & Hne & Hp).
  rewrite (action_params_throw svc _ _ w _ Hp). simpl.
  split; [exists issues; auto | auto].
Qed.

(** C9: every submission whose [action] is anything but exactly
    "destroy" (another string, a file, or no field at all) takes the
    update path: the form is reshaped and validated once, the disable
    service is not called, a rejected payload is answered with 422, and
    an accepted one is passed to the update service. *)
Theorem C9_any_other_action_updates params request w p o formPayload :
  parseParams params = inr (p, o) ->
  request_formData request = inr formPayload ->
  FormData_get "action" formPayload <> Some (FString "destroy") ->
  let formEntries := JSObject.fromEntries formPayload in
  let envVars := envVars_of formEntries in
  let run := action svc params request (start w) in
  validate_calls (trace (snd run)) = [(formEntries, envVars)] /\
  disable_calls (trace (snd run)) = [] /\
  (forall errors,
      UpdateProjectSettings_validate svc formEntries envVars = payloadError errors ->
      fst run = Returned (typedjson (validationError errors) 422 None) /\
      update_calls (trace (snd run)) = []) /\
  (forall data,
      UpdateProjectSettings_validate svc formEntries envVars = success data ->
      update_calls (trace (snd run)) = [(p, data)]).
Proof.
  intros Hp Hf Hd formEntries envVars run. subst run formEntries envVars.
  apply is_destroy_false in Hd.
  destruct (action_update_calls svc _ _ w _ _ _ Hp Hf Hd) as (H1 & H2 & H3).
  repeat (split; [assumption|]). split.
  - intros errors Hv.
    rewrite (action_payloadError_run svc _ _ w _ _ _ _ Hp Hf Hd Hv). auto.
  - intros data Hv. rewrite H3, Hv. reflexivity.
Qed.

(** C10: on the validation-failure path the handler calls no
    side-effecting collaborator: the flash-message helpers are not
    called, the 422 response has no headers, the world is as it was,
    and all the handler did was read the form, log it and validate
    it. *)
Theorem C10_validation_failure_has_no_cookie params request w p o formPayload errors :
  parseParams params = inr (p, o) ->
  request_formData request = inr formPayload ->
  FormData_get "action" formPayload <> Some (FString "destroy") ->
  UpdateProjectSettings_validate svc (JSObject.fromEntries formPayload)
    (envVars_of (JSObject.fromEntries formPayload)) = payloadError errors ->
  let run := action svc params request (start w) in
  fst run = Returned (typedjson (validationError errors) 422 None) /\
  trace (snd run) =
    [EvFormData (inr formPayload);
     EvConsoleLog (JSObject.fromEntries formPayload)
       (envVars_of (JSObject.fromEntries formPayload));
     EvValidate (JSObject.fromEntries formPayload)
       (envVars_of (JSObject.fromEntries formPayload)) (payloadError errors)] /\
  flash_calls (trace (snd run)) = [] /\
  cookie_calls (trace (snd run)) = [] /\
  disable_calls (trace (snd run)) = [] /\
  update_calls (trace (snd run)) = [] /\
  world (snd run) = w.
Proof.
  intros Hp Hf Hd Hv run. subst run.
  apply is_destroy_false in Hd.
  rewrite (action_payloadError_run svc _ _ w _ _ _ _ Hp Hf Hd Hv). simpl.
  repeat split.
Qed.

Local Ltac break_run :=
  unfold action, redirect_to, bind, lift, call, log, ret, start; simpl;
  repeat (match goal with
    | |- context [parseParams ?a] =>
        destruct (parseParams a) as [?|[? ?]] eqn:?
    | |- context [request_formData ?a] =>
        destruct (request_formData a) eqn:?
    | |- context [is_destroy ?a] =>
        destruct (is_destroy a) eqn:?
    | |- context [UpdateProjectSettings_validate ?s ?a ?b] =>
        destruct (UpdateProjectSettings_validate s a b) eqn:?
    | |- context [DisableProjectService_call ?s ?a ?b] =>
        destruct (DisableProjectService_call s a b) as [[?|?] ?] eqn:?
    | |- context [UpdateProjectSettings_call ?s ?a ?b ?c] =>
        destruct (UpdateProjectSettings_call s a b c) as [[?|[|]] ?] eqn:?
    | |- context [setRequestSuccessMessage ?s ?a ?b ?c] =>
        destruct (setRequestSuccessMessage s a b c) as [[?|?] ?] eqn:?
    | |- context [setToastMessageCookie ?s ?a ?b] =>
        destruct (setToastMessageCookie s a b) as [[?|?] ?] eqn:?
    | |- context [Location_accepted ?s ?a] =>
        destruct (Location_accepted s a) eqn:?
    end; simpl).

Local Ltac same_call H :=
  unfold updated_message in H;
  match type of H with
  | ?x = _ =>
      match goal with
      | H' : x = _ |- _ =>
          rewrite H' in H; first [discriminate H | injection H as ? ?; subst]
      end
  end.

Local Ltac pick_in :=
  simpl; repeat first [left; reflexivity | right].

Local Ltac in_trace H :=
  simpl in H;
  repeat (destruct H as [H|H]; [try discriminate H|]); try contradiction.

(** C2 (amended): for a submission whose [action] is not "destroy" and
    whose payload the validator accepts, the update service is called
    exactly once, with the project identifier and the validated data;
    the collaborators returning, the flash message is set and its cookie
    encoded, and the handler answers 200 with the success marker and the
    cookie headers when the update service returned [false], and returns
    the redirect to [/orgs/{organizationSlug}/projects/{projectP}] with
    the cookie headers when it returned [true] and that URL is accepted
    as a [Location] header value. *)
Theorem C2_valid_payload_updates_once params request w p o formPayload data :
  parseParams params = inr (p, o) ->
  request_formData request = inr formPayload ->
  FormData_get "action" formPayload <> Some (FString "destroy") ->
  UpdateProjectSettings_validate svc (JSObject.fromEntries formPayload)
    (envVars_of (JSObject.fromEntries formPayload)) = success data ->
  let run := action svc params request (start w) in
  update_calls (trace (snd run)) = [(p, data)] /\
  forall isDeploying w1 session w2 headers w3,
    UpdateProjectSettings_call svc p data w = (inr isDeploying, w1) ->
    setRequestSuccessMessage svc request (updated_message isDeploying) w1
      = (inr session, w2) ->
    setToastMessageCookie svc session w2 = (inr headers, w3) ->
    flash_calls (trace (snd run)) = [updated_message isDeploying] /\
    cookie_calls (trace (snd run)) = [session] /\
    (isDeploying = false ->
     fst run = Returned (typedjson successMarker 200 (Some headers))) /\
    (isDeploying = true ->
     Location_accepted svc ("/orgs/" ++ o ++ "/projects/" ++ p) = true ->
     fst run = Returned (redirect ("/orgs/" ++ o ++ "/projects/" ++ p) (Some headers))).
Proof.
  intros Hp Hf Hd Hv run. subst run.
  apply is_destroy_false in Hd.
  destruct (action_update_calls svc _ _ w _ _ _ Hp Hf Hd) as (_ & _ & H3).
  rewrite Hv in H3. split; [exact H3|].
  intros isDeploying w1 session w2 headers w3 Hu Hs Hc.
  rewrite (action_success_outcome svc _ _ _ _ _ _ _ _ _ _ _ _ _ Hp Hf Hd Hv Hu Hs Hc).
  simpl. repeat (split; [reflexivity|]). split.
  - intros ->. reflexivity.
  - intros -> ->. reflexivity.
Qed.

(** C7: a run that returns normally returns a redirect with the
    flash-message cookie headers, or the success marker with status 200
    (and those headers), or the validation errors with status 422, and
    nothing else; and a run does return when the route parameters parse,
    no collaborator throws and the two URLs the handler may redirect to
    are accepted as [Location] header values. *)
Theorem C7_terminal_outcomes params request w :
  let run := action svc params request (start w) in
  (forall response,
      fst run = Returned response ->
      (exists url text session headers,
          response = redirect url (Some headers) /\
          In (EvSuccessMessage request text (inr session)) (trace (snd run)) /\
          In (EvToastCookie session (inr headers)) (trace (snd run)))
      \/ (exists text session headers,
          response = typedjson successMarker 200 (Some headers) /\
          In (EvSuccessMessage request text (inr session)) (trace (snd run)) /\
          In (EvToastCookie session (inr headers)) (trace (snd run)))
      \/ (exists errors,
          response = typedjson (validationError errors) 422 None)) /\
  (forall p o,
      parseParams params = inr (p, o) ->
      Location_accepted svc ("/orgs/" ++ o ++ "/projects") = true ->
      Location_accepted svc ("/orgs/" ++ o ++ "/projects/" ++ p) = true ->
      forallb no_throw (trace (snd run)) = true ->
      exists response, fst run = Returned response).
Proof.
  intros run. subst run. break_run; split.
  all: try (intros response Hr; try discriminate Hr; injection Hr as <-).
  all: try (intros ?p ?o Hpo Hl1 Hl2 Hnt; try discriminate Hpo; try discriminate Hnt;
            injection Hpo as ? ?; subst; simpl in Hl1, Hl2; try congruence; eauto).
  all: first
    [ left; do 4 eexists; split; [reflexivity|]; split; pick_in
    | right; left; do 3 eexists; split; [reflexivity|]; split; pick_in
    | right; right; eexists; reflexivity ].
Qed.

End HandlerClaims.

(** ** The claims about the reshaper *)
Section ReshapeClaims.
Context {V : Type}.

(** C4 (amended): the environment-variable output holds exactly the
    entries derived from the properties whose key starts with [envVars[],
    whether or not the key ends with []]; the name is the key without the
    leading [envVars[] and without the first []] that follows it, which
    for a key [envVars[NAME]] with no []] in NAME is NAME; when several
    such keys give one name the last one enumerated gives the value; keys
    that do not start with [envVars[] contribute nothing. *)
Theorem C4_envVars_from_prefixed_keys (formEntries : JSObject.t V) :
  (forall name,
      JSObject.get name (envVars_of formEntries) =
      lookup_last envVarKey name (filter is_envVar_entry formEntries)) /\
  (forall name value,
      JSObject.get name (envVars_of formEntries) = Some value ->
      exists key, In (key, value) formEntries /\
                  JSString.startsWith key "envVars[" = true /\
                  envVarKey key = name) /\
  (forall key value,
      In (key, value) formEntries ->
      JSString.startsWith key "envVars[" = true ->
      exists value', JSObject.get (envVarKey key) (envVars_of formEntries) = Some value') /\
  (forall key,
      JSString.startsWith key "envVars[" = true ->
      envVarKey key = JSString.replace "]" "" (JSString.drop 8 key)) /\
  (forall name,
      JSString.includes name "]" = false -> envVarKey (wrapped name) = name).
Proof.
  split; [apply get_envVars_of|]. split; [|split; [|split]].
  - intros name value H. rewrite get_envVars_of in H.
    apply lookup_last_Some_In in H as (key & Hin & Hk).
    apply filter_In in Hin as [Hin Hp]. exists key. auto.
  - intros key value Hin Hp. rewrite get_envVars_of.
    apply (lookup_last_In envVarKey _ _ key value); [|reflexivity].
    apply filter_In. auto.
  - apply envVarKey_prefixed.
  - apply envVarKey_wrapped.
Qed.

(** C5 (amended): for names without []], in a form where no other field
    is reshaped to them: when the fields of the form are distinct and
    hold [envVars[A]=x] and [envVars[B]=y] with A and B different, the
    output maps A to x and B to y in whatever order the fields come; and
    when [envVars[A]] occurs more than once, the output maps A to the
    value of its last occurrence. *)
Theorem C5_order_insensitive_last_wins (l : list (string * V)) :
  (forall A B x y,
      A <> B ->
      JSString.includes A "]" = false ->
      JSString.includes B "]" = false ->
      only_field_for A l ->
      only_field_for B l ->
      NoDup (map fst l) ->
      In (wrapped A, x) l ->
      In (wrapped B, y) l ->
      forall l', Permutation l l' ->
        JSObject.get A (envVars_of (JSObject.fromEntries l')) = Some x /\
        JSObject.get B (envVars_of (JSObject.fromEntries l')) = Some y) /\
  (forall A x,
      JSString.includes A "]" = false ->
      only_field_for A l ->
      last_occurrence (wrapped A) l x ->
      JSObject.get A (envVars_of (JSObject.fromEntries l)) = Some x).
Proof.
  split.
  - intros A B x y _ HA HB HoA HoB Hnd Hx Hy l' Hperm.
    assert (Hnd' : NoDup (map fst l'))
      by (eapply Permutation_NoDup; [apply Permutation_map, Hperm | exact Hnd]).
    rewrite (get_envVars_wrapped l' A HA (only_field_for_perm A l l' Hperm HoA)).
    rewrite (get_envVars_wrapped l' B HB (only_field_for_perm B l l' Hperm HoB)).
    split; apply lookup_last_occurrence, last_occurrence_of_NoDup; trivial;
      eapply Permutation_in; eauto.
  - intros A x HA HoA Hx.
    rewrite (get_envVars_wrapped l A HA HoA).
    apply lookup_last_occurrence, Hx.
Qed.

End ReshapeClaims.

(** C4, as stated, fails: a key that starts with [envVars[] and does not
    end with []] contributes an entry, and a key of the stated shape whose
    name has a []] in it does not give the name between the wrapper. *)
Lemma C4_unclosed_key_contributes :
  spec_shape "envVars[FOO" = false /\
  envVars_of [("envVars[FOO", "bar")] = [("FOO", "bar")] /\
  spec_shape "envVars[A]B]" = true /\
  spec_name "envVars[A]B]" = "A]B" /\
  envVars_of [("envVars[A]B]", "x")] = [("AB]", "x")].
Proof. repeat split. Qed.

(** C5, as stated, fails: with the distinct fields [envVars[A]=x],
    [envVars[B]=y] and [envVars[A=z] the value under A depends on the order
    of the fields, and a name with a []] in it is not a name of the
    output. *)
Lemma C5_colliding_fields_depend_on_order :
  let l1 := [("envVars[A]", "x"); ("envVars[B]", "y"); ("envVars[A", "z")] in
  let l2 := [("envVars[A", "z"); ("envVars[A]", "x"); ("envVars[B]", "y")] in
  let l3 := [("envVars[a]b]", "x"); ("envVars[B]", "y")] in
  Permutation l1 l2 /\
  NoDup (map fst l1) /\
  In (wrapped "A", "x") l1 /\ In (wrapped "B", "y") l1 /\
  JSObject.get "A" (envVars_of (JSObject.fromEntries l1)) = Some "z" /\
  JSObject.get "A" (envVars_of (JSObject.fromEntries l2)) = Some "x" /\
  In (wrapped "a]b", "x") l3 /\
  JSObject.get "a]b" (envVars_of (JSObject.fromEntries l3)) = None.
Proof.
  cbv zeta. split.
  - apply Permutation_sym.
    apply (Permutation_cons_append
             [("envVars[A]", "x"); ("envVars[B]", "y")] ("envVars[A", "z")).
  - split.
    + repeat constructor; simpl; intuition discriminate.
    + simpl. repeat split; auto.
Qed.

(** C2, as stated, fails: a destroy submission whose payload the
    validator accepts does not reach the update service; and with a line
    feed in [projectP], the update service having returned [true] and
    every call having returned, the handler throws the [TypeError] of the
    [Location] header and returns no redirect. *)
Lemma C2_destroy_or_refused_location :
  let destroy_run := action Sample.services Sample.params
                       (Sample.request_of Sample.destroy_form) (start []) in
  let run := action Sample.services Sample.params_line_feed
               (Sample.request_of Sample.save_form) (start []) in
  (exists data,
      Sample.validate (JSObject.fromEntries Sample.destroy_form)
        (envVars_of (JSObject.fromEntries Sample.destroy_form)) = success data) /\
  update_calls (trace (snd destroy_run)) = [] /\
  (exists data, In (EvUpdate (String "p" (String "010"%char "1")) data (inr true))
                   (trace (snd run))) /\
  forallb no_throw (trace (snd run)) = true /\
  fst run = Threw (TypeError "Location"
                     (String.append "/orgs/acme/projects/p" (String "010"%char "1"))).
Proof.
  cbv zeta. split; [eexists; reflexivity|]. split; [reflexivity|].
  split; [|split; reflexivity].
  eexists. simpl. do 3 right. left. reflexivity.
Qed.

(** C3, as stated, fails: with the organization slug [日本] the disable
    service and the flash-message helpers run and return, and the handler
    throws the [TypeError] of the [Location] header and returns no
    redirect. *)
Lemma C3_refused_location_is_not_redirected :
  let run := action Sample.services Sample.params_wide_slug
               (Sample.request_of Sample.destroy_form) (start []) in
  disable_calls (trace (snd run)) = ["p1"] /\
  forallb no_throw (trace (snd run)) = true /\
  Sample.header_value_ok "/orgs/日本/projects" = false /\
  fst run = Threw (TypeError "Location" "/orgs/日本/projects").
Proof. repeat split. Qed.

(** ** The statements at the sample requests *)

Lemma Sample_validate_reports_an_issue formEntries envVars errs :
  Sample.validate formEntries envVars = payloadError errs -> errs <> [].
Proof.
  unfold Sample.validate.
  destruct (JSObject.get "branch" formEntries) as [[b|f]|];
    [destruct (String.eqb b "")|..]; intros [= <-]; discriminate.
Qed.

Lemma Sample_only_field_for_A :
  only_field_for "A" [("envVars[A]", "x"); ("autoDeploy", "yes"); ("envVars[B]", "y")].
Proof.
  intros k [<-|[<-|[<-|[]]]]; simpl; intros Hp Hk;
    try discriminate; reflexivity.
Qed.

Lemma Sample_only_field_for_B :
  only_field_for "B" [("envVars[A]", "x"); ("autoDeploy", "yes"); ("envVars[B]", "y")].
Proof.
  intros k [<-|[<-|[<-|[]]]]; simpl; intros Hp Hk;
    try discriminate; reflexivity.
Qed.

Lemma Sample_only_field_for_A_twice :
  only_field_for "A" [("envVars[A]", "1"); ("envVars[A]", "2")].
Proof. intros k [<-|[<-|[]]]; reflexivity. Qed.

Lemma C1_invalid_payload_answers_422_witness :
  let run := action Sample.services Sample.params
               (Sample.request_of Sample.invalid_form) (start []) in
  let errors :=
    [{| path := ["branch"]; message := "String must contain at least 1 character(s)" |}] in
  fst run = Returned (typedjson (validationError errors) 422 None) /\
  errors <> [] /\
  update_calls (trace (snd run)) = [].
Proof.
  apply (C1_invalid_payload_answers_422 Sample.services Sample.params
           (Sample.request_of Sample.invalid_form) [] "p1" "acme" Sample.invalid_form).
  - exact Sample_validate_reports_an_issue.
  - reflexivity.
  - reflexivity.
  - simpl. discriminate.
  - reflexivity.
Defined.

Lemma C2_valid_payload_updates_once_witness :
  let data := {| Sample.data_autoDeploy := true;
                 Sample.data_branch := "main";
                 Sample.data_envVars := [("FOO", FString "bar")] |} in
  let text := "Settings updated. Deploying your repo now..." in
  let run := action Sample.services Sample.params
               (Sample.request_of Sample.save_form) (start []) in
  update_calls (trace (snd run)) = [("p1", data)] /\
  flash_calls (trace (snd run)) = [text] /\
  cookie_calls (trace (snd run)) = [text] /\
  fst run = Returned (redirect "/orgs/acme/projects/p1" (Some [("Set-Cookie", text)])).
Proof.
  destruct (C2_valid_payload_updates_once Sample.services Sample.params
              (Sample.request_of Sample.save_form) [] "p1" "acme" Sample.save_form _
              eq_refl eq_refl ltac:(simpl; discriminate) eq_refl) as (H1 & H2).
  destruct (H2 _ _ _ _ _ _ eq_refl eq_refl eq_refl) as (H3 & H4 & _ & H5).
  split; [exact H1|]. split; [exact H3|]. split; [exact H4|].
  exact (H5 eq_refl eq_refl).
Defined.

Lemma C3_destroy_disables_and_redirects_witness :
  let run := action Sample.services Sample.params
               (Sample.request_of Sample.destroy_form) (start []) in
  let text := "Repository acme/p1 has been removed and will no longer be deployed." in
  disable_calls (trace (snd run)) = ["p1"] /\
  update_calls (trace (snd run)) = [] /\
  validate_calls (trace (snd run)) = [] /\
  flash_calls (trace (snd run)) = [text] /\
  fst run = Returned (redirect "/orgs/acme/projects" (Some [("Set-Cookie", text)])).
Proof.
  destruct (C3_destroy_disables_and_redirects Sample.services Sample.params
              (Sample.request_of Sample.destroy_form) [] "p1" "acme" Sample.destroy_form
              eq_refl eq_refl eq_refl) as (H1 & H2 & H3 & H4).
  repeat (split; [assumption|]).
  destruct (H4 _ _ _ _ _ _ eq_refl eq_refl eq_refl) as (H5 & _ & _ & H6).
  split; [exact H5 | exact (H6 eq_refl)].
Defined.

Lemma C4_envVars_from_prefixed_keys_witness :
  exists value,
    JSObject.get "FOO"
      (envVars_of [("autoDeploy", "yes"); ("envVars[FOO", "bar")]) = Some value.
Proof.
  exact (proj1 (proj2 (proj2
           (C4_envVars_from_prefixed_keys [("autoDeploy", "yes"); ("envVars[FOO", "bar")])))
           "envVars[FOO" "bar" (or_intror (or_introl eq_refl)) eq_refl).
Defined.

Lemma C5_order_insensitive_last_wins_witness :
  (JSObject.get "A"
     (envVars_of (JSObject.fromEntries
        [("envVars[B]", "y"); ("envVars[A]", "x"); ("autoDeploy", "yes")])) = Some "x" /\
   JSObject.get "B"
     (envVars_of (JSObject.fromEntries
        [("envVars[B]", "y"); ("envVars[A]", "x"); ("autoDeploy", "yes")])) = Some "y") /\
  JSObject.get "A"
    (envVars_of (JSObject.fromEntries [("envVars[A]", "1"); ("envVars[A]", "2")]))
  = Some "2".
Proof.
  split.
  - apply (proj1 (C5_order_insensitive_last_wins
                    [("envVars[A]", "x"); ("autoDeploy", "yes"); ("envVars[B]", "y")])
             "A" "B" "x" "y"
             ltac:(discriminate) eq_refl eq_refl
             Sample_only_field_for_A Sample_only_field_for_B).
    + repeat constructor; simpl; intuition discriminate.
    + simpl. auto.
    + simpl. auto.
    + apply Permutation_sym.
      apply (Permutation_cons_append
               [("envVars[A]", "x"); ("autoDeploy", "yes")] ("envVars[B]", "y")).
  - apply (proj2 (C5_order_insensitive_last_wins
                    [("envVars[A]", "1"); ("envVars[A]", "2")])
             "A" "2" eq_refl Sample_only_field_for_A_twice).
    exists [("envVars[A]", "1")], []. split; [reflexivity | simpl; tauto].
Defined.

Lemma C6_example_reaches_validator_witness :
  let run := action Sample.services Sample.params
               (Sample.request_of Sample.save_form) (start []) in
  validate_calls (trace (snd run)) =
    [([("action", FString "save"); ("autoDeploy", FString "yes");
       ("branch", FString "main"); ("buildCommand", FString "npm install");
       ("startCommand", FString "npm start"); ("envVars[FOO]", FString "bar")],
      [("FOO", FString "bar")])] /\
  update_calls (trace (snd run)) =
    [("p1", {| Sample.data_autoDeploy := true;
               Sample.data_branch := "main";
               Sample.data_envVars := [("FOO", FString "bar")] |})].
Proof.
  destruct (C6_example_reaches_validator Sample.services Sample.params
              (Sample.request_of Sample.save_form) [] "p1" "acme" eq_refl eq_refl)
    as (H1 & H2).
  split; [exact H1 | exact (H2 _ eq_refl)].
Defined.

Lemma C7_terminal_outcomes_witness :
  exists response,
    fst (action Sample.services Sample.params
           (Sample.request_of Sample.save_form) (start [])) = Returned response.
Proof.
  apply (proj2 (C7_terminal_outcomes Sample.services Sample.params
                  (Sample.request_of Sample.save_form) []) "p1" "acme");
    reflexivity.
Defined.

Lemma C8_malformed_params_fail_fast_witness :
  let run := action Sample.services Sample.params_without_project
               (Sample.request_of Sample.save_form) (start []) in
  (exists issues, issues <> [] /\ fst run = Threw (ZodError issues)) /\
  trace (snd run) = [] /\
  world (snd run) = [].
Proof.
  apply (C8_malformed_params_fail_fast Sample.services Sample.params_without_project
           (Sample.request_of Sample.save_form) []).
  intros (p & o & Hp & _). discriminate Hp.
Defined.

Lemma C9_any_other_action_updates_witness :
  let run := action Sample.services Sample.params
               (Sample.request_of Sample.no_action_form) (start []) in
  validate_calls (trace (snd run)) =
    [(Sample.no_action_form, [("FOO", FString "bar")])] /\
  disable_calls (trace (snd run)) = [] /\
  update_calls (trace (snd run)) =
    [("p1", {| Sample.data_autoDeploy := false;
               Sample.data_branch := "main";
               Sample.data_envVars := [("FOO", FString "bar")] |})].
Proof.
  destruct (C9_any_other_action_updates Sample.services Sample.params
              (Sample.request_of Sample.no_action_form) [] "p1" "acme"
              Sample.no_action_form eq_refl eq_refl ltac:(simpl; discriminate))
    as (H1 & H2 & _ & H4).
  split; [exact H1|]. split; [exact H2|]. exact (H4 _ eq_refl).
Defined.

Lemma C10_validation_failure_has_no_cookie_witness :
  let run := action Sample.services Sample.params
               (Sample.request_of Sample.invalid_form) (start []) in
  fst run =
    Returned (typedjson
      (validationError
         [{| path := ["branch"]; message := "String must contain at least 1 character(s)" |}])
      422 None) /\
  trace (snd run) =
    [EvFormData (inr Sample.invalid_form);
     EvConsoleLog Sample.invalid_form [("FOO", FString "bar")];
     EvValidate Sample.invalid_form [("FOO", FString "bar")]
       (payloadError
          [{| path := ["branch"];
              message := "String must contain at least 1 character(s)" |}])] /\
  flash_calls (trace (snd run)) = [] /\
  cookie_calls (trace (snd run)) = [] /\
  disable_calls (trace (snd run)) = [] /\
  update_calls (trace (snd run)) = [] /\
  world (snd run) = [].
Proof.
  apply (C10_validation_failure_has_no_cookie Sample.services Sample.params
           (Sample.request_of Sample.invalid_form) [] "p1" "acme" Sample.invalid_form).
  - reflexivity.
  - reflexivity.
  - simpl. discriminate.
  - reflexivity.
Defined.

(** ** Further facts: the form object and the reshaper *)
Module JSObjectOrder.
Import JSObject.

Section Order.
Context {V : Type}.
Variable P : string -> bool.
Hypothesis P_not_index : forall k, P k = true -> array_index k = None.
Implicit Types (o : t V) (k : string) (v : V).

Local Abbreviation sel := (fun kv : string * V => P (fst kv)).

Lemma filter_update k v o :
  filter sel (update k v o) =
  if P k then update k v (filter sel o) else filter sel o.
Proof.
  induction o as [|[k0 v0] o IH]; simpl.
  - destruct (P k); reflexivity.
  - destruct (String.eqb_spec k0 k) as [->|ne]; simpl.
    + destruct (P k); simpl; [rewrite String.eqb_refl|]; reflexivity.
    + rewrite IH. destruct (P k) eqn:Hk, (P k0) eqn:Hk0; simpl; try reflexivity.
      destruct (String.eqb_spec k0 k); [contradiction | reflexivity].
Qed.

Lemma filter_insert_index n k v o :
  P k = false -> filter sel (insert_index n k v o) = filter sel o.
Proof.
  intros Hk. induction o as [|[k0 v0] o IH]; simpl.
  - rewrite Hk. reflexivity.
  - destruct (array_index k0) as [m|]; [destruct (m <? n)%N|]; simpl;
      try (rewrite Hk; reflexivity).
    rewrite IH. reflexivity.
Qed.

Lemma get_filter k o : P k = true -> get k (filter sel o) = get k o.
Proof.
  intros Hk. induction o as [|[k0 v0] o IH]; simpl; [reflexivity|].
  destruct (String.eqb_spec k0 k) as [->|ne].
  - rewrite Hk. simpl. rewrite String.eqb_refl. reflexivity.
  - destruct (P k0); simpl; [|exact IH].
    destruct (String.eqb_spec k0 k); [contradiction | exact IH].
Qed.

(** Writing a property and keeping the selected properties commute. *)
Lemma filter_set k v o :
  filter sel (set k v o) =
  if P k then set k v (filter sel o) else filter sel o.
Proof.
  unfold set. destruct (P k) eqn:Hk.
  - unfold has. rewrite (get_filter k o Hk).
    destruct (get k o).
    + rewrite filter_update, Hk. reflexivity.
    + rewrite (P_not_index k Hk), filter_app. simpl.
      rewrite Hk. reflexivity.
  - destruct (has k o).
    + rewrite filter_update, Hk. reflexivity.
    + destruct (array_index k).
      * apply filter_insert_index, Hk.
      * rewrite filter_app. simpl. rewrite Hk.
        apply app_nil_r.
Qed.

Lemma filter_fold (l : list (string * V)) o :
  filter sel (fold_left (fun o kv => set (fst kv) (snd kv) o) l o) =
  fold_left (fun o kv => set (fst kv) (snd kv) o) (filter sel l) (filter sel o).
Proof.
  revert o. induction l as [|[k v] l IH]; simpl; intros o; [reflexivity|].
  rewrite IH, filter_set.
  destruct (P k); reflexivity.
Qed.

Lemma filter_fromEntries (l : list (string * V)) :
  filter sel (fromEntries l) = fromEntries (filter sel l).
Proof. unfold fromEntries. rewrite filter_fold. reflexivity. Qed.

End Order.

Section Fresh.
Context {V : Type}.
Variable f : string -> string.

(** Writing fresh keys that are not array indices appends them. *)
Lemma fold_set_fresh (l : list (string * V)) (o : t V) :
  (forall kv, In kv l -> array_index (f (fst kv)) = None) ->
  NoDup (keys o ++ map (fun kv => f (fst kv)) l) ->
  fold_left (fun o kv => set (f (fst kv)) (snd kv) o) l o =
  o ++ map (fun kv => (f (fst kv), snd kv)) l.
Proof.
  revert o. induction l as [|[k v] l IH]; simpl; intros o Hidx Hnd.
  - symmetry. apply app_nil_r.
  - assert (Hfresh : has (f k) o = false).
    { apply JSObjectFacts.has_false_keys. intros Hin.
      apply NoDup_remove_2 in Hnd. apply Hnd, in_or_app. now left. }
    assert (Hset : set (f k) v o = o ++ [(f k, v)]).
    { unfold set. rewrite Hfresh.
      pose proof (Hidx (k, v) (or_introl eq_refl)) as Hi. simpl in Hi.
      rewrite Hi. reflexivity. }
    rewrite Hset, IH.
    + rewrite <- app_assoc. reflexivity.
    + intros kv Hkv. apply Hidx. now right.
    + unfold keys in *. rewrite map_app, <- app_assoc. exact Hnd.
Qed.

End Fresh.
End JSObjectOrder.

Lemma prefixed_not_index k :
  JSString.startsWith k "envVars[" = true -> JSObject.array_index k = None.
Proof.
  unfold JSString.startsWith. destruct k as [|c k]; [discriminate|].
  cbn [String.prefix]. destruct (ascii_dec "e" c) as [<-|ne]; [|discriminate].
  reflexivity.
Qed.

Section ReshapeOrder.
Context {V : Type}.

Lemma filter_envVars_fromEntries (l : list (string * V)) :
  filter is_envVar_entry (JSObject.fromEntries l) =
  JSObject.fromEntries (filter is_envVar_entry l).
Proof.
  exact (JSObjectOrder.filter_fromEntries
           (fun k => JSString.startsWith k "envVars[") prefixed_not_index l).
Qed.

Lemma filter_idem (P : string * V -> bool) (l : list (string * V)) :
  filter P (filter P l) = filter P l.
Proof.
  induction l as [|kv l IH]; simpl; [reflexivity|].
  destruct (P kv) eqn:Hkv; simpl; [rewrite Hkv, IH|]; auto.
Qed.

Lemma map_pair_id (l : list (string * V)) :
  map (fun kv => (fst kv, snd kv)) l = l.
Proof. induction l as [|[k v] l IH]; simpl; [|rewrite IH]; reflexivity. Qed.

Lemma envVars_of_form_order (l : list (string * V)) :
  NoDup (map (fun kv => envVarKey (fst kv)) (filter is_envVar_entry l)) ->
  (forall kv, In kv (filter is_envVar_entry l) ->
              JSObject.array_index (envVarKey (fst kv)) = None) ->
  envVars_of (JSObject.fromEntries l) =
  map (fun kv => (envVarKey (fst kv), snd kv)) (filter is_envVar_entry l).
Proof.
  intros Hnd Hidx.
  unfold envVars_of, JSObject.entries.
  rewrite filter_envVars_fromEntries.
  assert (Hsame : JSObject.fromEntries (filter is_envVar_entry l)
                  = filter is_envVar_entry l).
  { unfold JSObject.fromEntries.
    rewrite (JSObjectOrder.fold_set_fresh (fun k => k)); simpl.
    - apply map_pair_id.
    - intros kv Hkv. apply prefixed_not_index.
      apply filter_In in Hkv. apply Hkv.
    - rewrite <- (map_map fst envVarKey) in Hnd.
      apply NoDup_map_inv in Hnd. exact Hnd. }
  rewrite Hsame.
  exact (JSObjectOrder.fold_set_fresh envVarKey _ [] Hidx Hnd).
Qed.

End ReshapeOrder.

Section ReshapeExtras.
Context {V : Type}.
Implicit Types (formEntries : JSObject.t V) (l : list (string * V)).

(** X1: the reshaped mapping is empty exactly when no property of the
    form object has a key starting with [envVars[]. *)
Theorem envVars_of_empty_iff formEntries :
  envVars_of formEntries = [] <->
  (forall k, In k (JSObject.keys formEntries) ->
             JSString.startsWith k "envVars[" = false).
Proof.
  split.
  - intros Hnil k Hk.
    destruct (JSString.startsWith k "envVars[") eqn:Hp; [|reflexivity].
    exfalso. apply in_map_iff in Hk as ([k' v] & <- & Hin). simpl in Hp.
    assert (Hsel : In (k', v) (filter is_envVar_entry formEntries))
      by (apply filter_In; auto).
    destruct (lookup_last_In envVarKey (envVarKey k') _ k' v Hsel eq_refl) as (v' & Hv).
    rewrite <- get_envVars_of, Hnil in Hv. discriminate Hv.
  - intros Hno. unfold envVars_of, JSObject.entries.
    assert (Hf : filter is_envVar_entry formEntries = []).
    { induction formEntries as [|[k v] o IH]; simpl; [reflexivity|].
      unfold is_envVar_entry at 1. simpl.
      rewrite (Hno k (or_introl eq_refl)).
      apply IH. intros k' Hk'. apply Hno. now right. }
    rewrite Hf. reflexivity.
Qed.

(** X2: [Object.fromEntries(formPayload)] keeps one own property per
    field name, holding the value of the last field of that name, and has
    no own property for a name the form does not have. *)
Theorem formEntries_last_field_wins l k :
  (forall x, last_occurrence k l x ->
             JSObject.get k (JSObject.fromEntries l) = Some x) /\
  (~ In k (map fst l) -> JSObject.get k (JSObject.fromEntries l) = None) /\
  NoDup (JSObject.keys (JSObject.fromEntries l)).
Proof.
  split; [|split].
  - intros x Hx. rewrite JSObjectFacts.get_fromEntries.
    apply lookup_last_occurrence, Hx.
  - intros Hk. rewrite JSObjectFacts.get_fromEntries.
    apply lookup_last_None. intros k' Hk' ->. contradiction.
  - apply JSObjectFacts.NoDup_keys_fromEntries.
Qed.

(** X3: the fields whose name does not start with [envVars[] have no
    influence on the reshaped mapping: it is the one of the form cut down
    to its [envVars[] fields. *)
Theorem envVars_of_ignores_other_fields l :
  envVars_of (JSObject.fromEntries l) =
  envVars_of (JSObject.fromEntries (filter is_envVar_entry l)).
Proof.
  unfold envVars_of, JSObject.entries.
  rewrite !filter_envVars_fromEntries, filter_idem. reflexivity.
Qed.

(** X4: when the names the [envVars[] fields are reshaped to are pairwise
    distinct and none is an array index, the mapping lists them in the
    order of the form, each with the value of its field. *)
Theorem envVars_of_keeps_form_order l :
  NoDup (map (fun kv => envVarKey (fst kv)) (filter is_envVar_entry l)) ->
  (forall kv, In kv (filter is_envVar_entry l) ->
              JSObject.array_index (envVarKey (fst kv)) = None) ->
  envVars_of (JSObject.fromEntries l) =
  map (fun kv => (envVarKey (fst kv), snd kv)) (filter is_envVar_entry l).
Proof. apply envVars_of_form_order. Qed.

End ReshapeExtras.

(** ** Further facts: the handler *)
Section HandlerExtras.
Context {World Session Headers Data : Type}.
Variable svc : Services World Session Headers Data.
Implicit Types (params : Params) (request : Request) (w : World).

Local Ltac all_runs :=
  unfold action, redirect_to, bind, lift, call, log, ret, start; simpl;
  repeat (match goal with
    | |- context [parseParams ?a] =>
        destruct (parseParams a) as [?|[? ?]] eqn:?
    | |- context [request_formData ?a] =>
        destruct (request_formData a) eqn:?
    | |- context [is_destroy ?a] =>
        destruct (is_destroy a) eqn:?
    | |- context [UpdateProjectSettings_validate ?s ?a ?b] =>
        destruct (UpdateProjectSettings_validate s a b) eqn:?
    | |- context [DisableProjectService_call ?s ?a ?b] =>
        destruct (DisableProjectService_call s a b) as [[?|?] ?] eqn:?
    | |- context [UpdateProjectSettings_call ?s ?a ?b ?c] =>
        destruct (UpdateProjectSettings_call s a b c) as [[?|[|]] ?] eqn:?
    | |- context [setRequestSuccessMessage ?s ?a ?b ?c] =>
        destruct (setRequestSuccessMessage s a b c) as [[?|?] ?] eqn:?
    | |- context [setToastMessageCookie ?s ?a ?b] =>
        destruct (setToastMessageCookie s a b) as [[?|?] ?] eqn:?
    | |- context [Location_accepted ?s ?a] =>
        destruct (Location_accepted s a) eqn:?
    end; simpl).

Local Ltac in_log H :=
  simpl in H;
  repeat (destruct H as [H|H]; [try discriminate H|]); try contradiction.

Local Ltac found := simpl; repeat first [left; reflexivity | right].

(** Where in an explicit log an event of a given kind can stand. *)
Local Ltac at_position before H :=
  repeat (destruct before as [|? before]; simpl in H;
          [try discriminate H; try (injection H as ? ?; subst)
          | first [discriminate H | injection H as ? H; subst]]).


(** X5: when the body of the request cannot be read, the handler throws
    what [request.formData()] rejected with, before any collaborator is
    called. *)
Theorem unreadable_body_stops_the_handler params request w p o e :
  parseParams params = inr (p, o) ->
  request_formData request = inl e ->
  let run := action svc params request (start w) in
  fst run = Threw e /\
  trace (snd run) = [EvFormData (inl e)] /\
  world (snd run) = w.
Proof.
  intros Hp Hf run. subst run.
  rewrite (action_formData_throw svc _ _ w _ _ _ Hp Hf). auto.
Qed.


(** X7: the handler does not undo an update: when the update service
    returns and the flash-message helper then throws, the handler throws
    that exception, builds no response and no cookie, and the world stays
    as the update and the helper left it. *)
Theorem failed_flash_keeps_the_update params request w p o formPayload data
        isDeploying w1 e w2 :
  parseParams params = inr (p, o) ->
  request_formData request = inr formPayload ->
  FormData_get "action" formPayload <> Some (FString "destroy") ->
  UpdateProjectSettings_validate svc (JSObject.fromEntries formPayload)
    (envVars_of (JSObject.fromEntries formPayload)) = success data ->
  UpdateProjectSettings_call svc p data w = (inr isDeploying, w1) ->
  setRequestSuccessMessage svc request (updated_message isDeploying) w1 = (inl e, w2) ->
  let run := action svc params request (start w) in
  fst run = Threw e /\
  update_calls (trace (snd run)) = [(p, data)] /\
  cookie_calls (trace (snd run)) = [] /\
  world (snd run) = w2.
Proof.
  intros Hp Hf Hd Hv Hu Hs run. subst run. apply is_destroy_false in Hd.
  unfold action, redirect_to, bind, lift, call, log, ret, start; simpl.
  rewrite Hp, Hf. simpl. rewrite Hd, Hv. simpl. rewrite Hu. simpl.
  rewrite Hs. simpl. auto.
Qed.

(** X8: when the disable service throws, the handler throws that
    exception: no flash message is set, no cookie is encoded, nothing is
    validated or updated, and the world is as the service left it. *)
Theorem failed_disable_propagates params request w p o formPayload e w1 :
  parseParams params = inr (p, o) ->
  request_formData request = inr formPayload ->
  FormData_get "action" formPayload = Some (FString "destroy") ->
  DisableProjectService_call svc p w = (inl e, w1) ->
  let run := action svc params request (start w) in
  fst run = Threw e /\
  trace (snd run) = [EvFormData (inr formPayload); EvDisable p (inl e)] /\
  world (snd run) = w1.
Proof.
  intros Hp Hf Hd Hc run. subst run. apply is_destroy_true in Hd.
  unfold action, redirect_to, bind, lift, call, log, ret, start; simpl.
  rewrite Hp, Hf. simpl. rewrite Hd. simpl. rewrite Hc. simpl. auto.
Qed.

(** X9: on any request, whatever the collaborators answer, the handler
    reads the body at most once, validates at most once, calls at most
    one of the disable and update services and that one at most once,
    never disables after validating, and sets at most one flash message
    and one cookie. *)
Theorem each_collaborator_at_most_once params request w :
  let tr := trace (snd (action svc params request (start w))) in
  (formData_reads tr <= 1)%nat /\
  (List.length (validate_calls tr) <= 1)%nat /\
  (List.length (disable_calls tr) + List.length (update_calls tr) <= 1)%nat /\
  (List.length (disable_calls tr) + List.length (validate_calls tr) <= 1)%nat /\
  (List.length (flash_calls tr) <= 1)%nat /\
  (List.length (cookie_calls tr) <= 1)%nat.
Proof.
  all_runs; repeat split; auto.
Qed.

(** X10: a flash message is set only after a service call that
    returned, and says what that call did: before the call that sets it
    the log holds a disable call that returned, the text being the removal
    text with the name of the project it returned, or an update call that
    returned, the text being the update text for what it returned; and a
    cookie is encoded only after the flash-message helper returned the
    session it is encoded for. *)
Theorem flash_follows_a_successful_service params request w :
  let tr := trace (snd (action svc params request (start w))) in
  (forall before text res after,
      tr = before ++ EvSuccessMessage request text res :: after ->
      (exists p project,
          In (EvDisable p (inr project)) before /\ text = removed_message project) \/
      (exists p data isDeploying,
          In (EvUpdate p data (inr isDeploying)) before /\
          text = updated_message isDeploying)) /\
  (forall before session res after,
      tr = before ++ EvToastCookie session res :: after ->
      exists text, In (EvSuccessMessage request text (inr session)) before).
Proof.
  all_runs; split; intros before x res after H; at_position before H.
  all: try (left; do 2 eexists; split; [found | reflexivity]).
  all: try (right; do 3 eexists; split; [found | reflexivity]).
  all: try (eexists; found).
Qed.

(** X11: the first [action] field of the form decides the branch, the
    last one is the one the validator sees: when the first is not
    "destroy" the form is validated and the disable service is not
    called, even if a later [action] field says "destroy". *)
Theorem first_action_field_decides params request w p o formPayload last_action :
  parseParams params = inr (p, o) ->
  request_formData request = inr formPayload ->
  FormData_get "action" formPayload <> Some (FString "destroy") ->
  last_occurrence "action" formPayload last_action ->
  let run := action svc params request (start w) in
  disable_calls (trace (snd run)) = [] /\
  exists formEntries envVars,
    validate_calls (trace (snd run)) = [(formEntries, envVars)] /\
    JSObject.get "action" formEntries = Some last_action.
Proof.
  intros Hp Hf Hd Hlast run. subst run. apply is_destroy_false in Hd.
  destruct (action_update_calls svc _ _ w _ _ _ Hp Hf Hd) as (H1 & H2 & _).
  split; [exact H2|]. do 2 eexists. split; [exact H1|].
  rewrite JSObjectFacts.get_fromEntries.
  apply lookup_last_occurrence, Hlast.
Qed.

(** X12: on the update path the calls are made in strict sequence, each
    on the world the one before left: read the body, log, validate,
    update, set the flash message, encode the cookie. *)
Theorem update_calls_in_sequence params request w p o formPayload data
        isDeploying w1 session w2 headers w3 :
  parseParams params = inr (p, o) ->
  request_formData request = inr formPayload ->
  FormData_get "action" formPayload <> Some (FString "destroy") ->
  UpdateProjectSettings_validate svc (JSObject.fromEntries formPayload)
    (envVars_of (JSObject.fromEntries formPayload)) = success data ->
  UpdateProjectSettings_call svc p data w = (inr isDeploying, w1) ->
  setRequestSuccessMessage svc request (updated_message isDeploying) w1 = (inr session, w2) ->
  setToastMessageCookie svc session w2 = (inr headers, w3) ->
  let run := action svc params request (start w) in
  trace (snd run) =
    [EvFormData (inr formPayload);
     EvConsoleLog (JSObject.fromEntries formPayload)
       (envVars_of (JSObject.fromEntries formPayload));
     EvValidate (JSObject.fromEntries formPayload)
       (envVars_of (JSObject.fromEntries formPayload)) (success data);
     EvUpdate p data (inr isDeploying);
     EvSuccessMessage request (updated_message isDeploying) (inr session);
     EvToastCookie session (inr headers)] /\
  world (snd run) = w3.
Proof.
  intros Hp Hf Hd Hv Hu Hs Hc run. subst run. apply is_destroy_false in Hd.
  rewrite (action_success_outcome svc _ _ _ _ _ _ _ _ _ _ _ _ _ Hp Hf Hd Hv Hu Hs Hc).
  auto.
Qed.

(** X13: on the destroy path the calls are made in strict sequence, each
    on the world the one before left: read the body, disable, set the
    flash message, encode the cookie. *)
Theorem destroy_calls_in_sequence params request w p o formPayload
        project w1 session w2 headers w3 :
  parseParams params = inr (p, o) ->
  request_formData request = inr formPayload ->
  FormData_get "action" formPayload = Some (FString "destroy") ->
  DisableProjectService_call svc p w = (inr project, w1) ->
  setRequestSuccessMessage svc request (removed_message project) w1 = (inr session, w2) ->
  setToastMessageCookie svc session w2 = (inr headers, w3) ->
  let run := action svc params request (start w) in
  trace (snd run) =
    [EvFormData (inr formPayload);
     EvDisable p (inr project);
     EvSuccessMessage request (removed_message project) (inr session);
     EvToastCookie session (inr headers)] /\
  world (snd run) = w3.
Proof.
  intros Hp Hf Hd Hc Hs Hh run. subst run. apply is_destroy_true in Hd.
  rewrite (action_destroy_outcome svc _ _ _ _ _ _ _ _ _ _ _ _ Hp Hf Hd Hc Hs Hh).
  auto.
Qed.

End HandlerExtras.

(** ** Further facts: the settings page *)
Section PageFacts.
Context {A : Type}.
Variable collect : Node -> list A.

Lemma flat_map_nodes (l : list Node) :
  flat_map collect (flat_map nodes l) =
  flat_map (fun n => flat_map collect (nodes n)) l.
Proof.
  induction l as [|n l IH]; simpl; [reflexivity|].
  rewrite flat_map_app, IH. reflexivity.
Qed.

Lemma collect_groups (group : EnvVar -> Node) (item : EnvVar -> A) (l : list EnvVar) :
  (forall envVar, flat_map collect (nodes (group envVar)) = [item envVar]) ->
  flat_map collect (flat_map nodes (map group l)) = map item l.
Proof.
  intros H. rewrite flat_map_nodes.
  induction l as [|envVar l IH]; simpl; [reflexivity|].
  rewrite H, IH. reflexivity.
Qed.

Lemma collect_no_groups (group : EnvVar -> Node) (l : list EnvVar) :
  (forall envVar, flat_map collect (nodes (group envVar)) = []) ->
  flat_map collect (flat_map nodes (map group l)) = [].
Proof.
  intros H. rewrite flat_map_nodes.
  induction l as [|envVar l IH]; simpl; [reflexivity|].
  rewrite H, IH. reflexivity.
Qed.

End PageFacts.

Lemma fields_envVarGroup submitting actionData envVar :
  flat_map field_of (nodes (envVarGroup submitting actionData envVar)) =
  [(wrapped (key envVar), value envVar)].
Proof. destruct submitting, actionData as [[errors|]|]; reflexivity. Qed.

Lemma fields_settingsPage current actionData submitting :
  fields (settingsPage current actionData submitting) =
  map (fun envVar => (wrapped (key envVar), value envVar)) (envVars current) ++
  [("autoDeploy", if autoDeploy (project current) then "yes" else "no");
   ("branch", branch (project current));
   ("buildCommand", buildCommand (project current));
   ("startCommand", startCommand (project current))].
Proof.
  destruct current as [[auto br bc sc] needs [|envVar l]]; unfold fields, settingsPage;
    destruct needs, submitting, actionData as [[errors|]|]; cbn; try reflexivity.
  all: rewrite ?app_nil_r, ?flat_map_app.
  all: rewrite (collect_groups field_of _ _ l (fields_envVarGroup _ _)).
  all: cbn; rewrite ?app_nil_r; reflexivity.
Qed.

Lemma controls_envVarGroup submitting actionData envVar :
  flat_map control_disabled (nodes (envVarGroup submitting actionData envVar)) =
  [Some (PBool submitting)].
Proof. destruct submitting, actionData as [[errors|]|]; reflexivity. Qed.

Lemma buttons_envVarGroup submitting actionData envVar :
  flat_map button_of (nodes (envVarGroup submitting actionData envVar)) = [].
Proof. destruct submitting, actionData as [[errors|]|]; reflexivity. Qed.

Lemma formErrors_shown_envVarGroup errors envVar :
  flat_map formError_of
    (nodes (envVarGroup false (Some (validationError errors)) envVar)) =
  [([key envVar], errors)].
Proof. reflexivity. Qed.

Lemma formErrors_hidden_envVarGroup submitting actionData envVar :
  (submitting = true \/ forall errors, actionData <> Some (validationError errors)) ->
  flat_map formError_of (nodes (envVarGroup submitting actionData envVar)) = [].
Proof.
  intros [->|H]; [destruct actionData as [[errors|]|]; reflexivity|].
  destruct submitting, actionData as [[errors|]|]; try reflexivity.
  destruct (H errors eq_refl).
Qed.

Local Ltac page_cases current actionData submitting :=
  destruct current as [[auto br bc sc] needs [|envVar l]];
  destruct needs, submitting, actionData as [[errors|]|]; cbn; try reflexivity;
  rewrite ?app_nil_r, ?flat_map_app.

Lemma controls_settingsPage current actionData submitting :
  controls_disabled (settingsPage current actionData submitting) =
  map (fun _ => Some (PBool submitting)) (envVars current) ++
  [Some (PBool submitting); Some (PBool submitting);
   Some (PBool submitting); Some (PBool submitting)].
Proof.
  unfold controls_disabled, settingsPage.
  page_cases current actionData submitting.
  all: rewrite (collect_groups control_disabled _ _ l (controls_envVarGroup _ _)).
  all: cbn; rewrite ?app_nil_r; reflexivity.
Qed.

Lemma buttons_settingsPage current actionData submitting :
  buttons (settingsPage current actionData submitting) =
  (if submitting then [] else [("action", "save")]) ++ [("action", "destroy")].
Proof.
  unfold buttons, settingsPage.
  page_cases current actionData submitting.
  all: rewrite (collect_no_groups button_of _ l (buttons_envVarGroup _ _)).
  all: cbn; rewrite ?app_nil_r; reflexivity.
Qed.

Lemma formErrors_shown_settingsPage current errors :
  formErrors (settingsPage current (Some (validationError errors)) false) =
  map (fun envVar => ([key envVar], errors)) (envVars current) ++
  [(["branch"], errors); (["buildCommand"], errors); (["startCommand"], errors)].
Proof.
  unfold formErrors, settingsPage.
  destruct current as [[auto br bc sc] needs [|envVar l]];
    destruct needs; cbn; try reflexivity;
    rewrite ?app_nil_r, ?flat_map_app.
  all: rewrite (collect_groups formError_of _ _ l (formErrors_shown_envVarGroup errors)).
  all: cbn; rewrite ?app_nil_r; reflexivity.
Qed.

Lemma formErrors_hidden_settingsPage current actionData submitting :
  (submitting = true \/ forall errors, actionData <> Some (validationError errors)) ->
  formErrors (settingsPage current actionData submitting) = [].
Proof.
  intros H.
  assert (Hg := fun envVar => formErrors_hidden_envVarGroup submitting actionData envVar H).
  unfold formErrors, settingsPage.
  destruct current as [[auto br bc sc] needs [|envVar l]];
    destruct needs, submitting, actionData as [[errors|]|]; cbn; try reflexivity;
    try (destruct H as [H|H]; [discriminate H | destruct (H errors eq_refl)]);
    rewrite ?app_nil_r, ?flat_map_app.
  all: rewrite (collect_no_groups formError_of _ l Hg).
  all: cbn; rewrite ?app_nil_r; try reflexivity.
  all: rewrite (Hg envVar); reflexivity.
Qed.

Lemma ProjectSettingsPage_inv current actionData transition page :
  ProjectSettingsPage current actionData transition = Some page ->
  exists submitting,
    isSubmittingOrLoading transition = Some submitting /\
    page = settingsPage current actionData submitting.
Proof.
  unfold ProjectSettingsPage.
  destruct (isSubmittingOrLoading transition) as [b|]; [|discriminate].
  intros [= <-]. eauto.
Qed.

Lemma envVar_fields_selected (l : list EnvVar) (rest : list (string * string)) :
  filter is_envVar_entry (as_formData rest) = [] ->
  filter is_envVar_entry
    (as_formData (map (fun envVar => (wrapped (key envVar), value envVar)) l ++ rest)) =
  as_formData (map (fun envVar => (wrapped (key envVar), value envVar)) l).
Proof.
  intros Hrest. unfold as_formData in *. rewrite map_app, filter_app, Hrest, app_nil_r.
  induction l as [|envVar l IH]; [reflexivity|].
  cbn [map filter]. unfold is_envVar_entry at 1. cbn [fst].
  rewrite JSStringFacts.startsWith_wrapped, IH. reflexivity.
Qed.

Section PageExtras.
Variables (current : CurrentProject) (actionData : option Body)
          (transition : Transition) (page : Node).
Hypothesis rendered : ProjectSettingsPage current actionData transition = Some page.

(** X14: the page and the handler agree on the field names: when the
    project's variable keys are pairwise distinct, have no []] in them
    and are not array indices, the fields of the rendered form, sent as
    they are, are reshaped by the handler into exactly the project's
    variables, in their order, each with its value. *)
Theorem page_fields_reshape_to_the_variables :
  NoDup (map key (envVars current)) ->
  (forall envVar, In envVar (envVars current) ->
                  JSString.includes (key envVar) "]" = false /\
                  JSObject.array_index (key envVar) = None) ->
  envVars_of (JSObject.fromEntries (as_formData (fields page))) =
  map (fun envVar => (key envVar, FString (value envVar))) (envVars current).
Proof.
  intros Hnd Hkeys.
  destruct (ProjectSettingsPage_inv _ _ _ _ rendered) as (b & _ & ->).
  rewrite fields_settingsPage.
  assert (Hnames :
    map (fun kv : string * FormDataEntryValue => (envVarKey (fst kv), snd kv))
      (as_formData (map (fun envVar => (wrapped (key envVar), value envVar))
                      (envVars current))) =
    map (fun envVar => (key envVar, FString (value envVar))) (envVars current)).
  { unfold as_formData. rewrite !map_map. apply map_ext_in.
    intros envVar Hin. cbn [fst snd].
    rewrite (envVarKey_wrapped _ (proj1 (Hkeys envVar Hin))). reflexivity. }
  rewrite envVars_of_form_order; rewrite envVar_fields_selected by reflexivity.
  - exact Hnames.
  - replace (map (fun kv : string * FormDataEntryValue => envVarKey (fst kv)) _)
      with (map key (envVars current)); [exact Hnd|].
    unfold as_formData. rewrite !map_map. apply map_ext_in.
    intros envVar Hin. cbn [fst].
    symmetry. apply envVarKey_wrapped, Hkeys, Hin.
  - intros kv Hkv. unfold as_formData in Hkv. rewrite map_map in Hkv.
    apply in_map_iff in Hkv as (envVar & <- & Hin). cbn [fst].
    rewrite (envVarKey_wrapped _ (proj1 (Hkeys envVar Hin))).
    apply Hkeys, Hin.
Qed.

(** X15: the fields of the rendered form carry the project's current
    settings under the names [autoDeploy] ("yes" or "no"), [branch],
    [buildCommand] and [startCommand], whatever the variables are called,
    and none of them is named [action]: only the buttons are. *)
Theorem page_fields_carry_the_settings :
  let formEntries := JSObject.fromEntries (as_formData (fields page)) in
  JSObject.get "autoDeploy" formEntries
    = Some (FString (if autoDeploy (project current) then "yes" else "no")) /\
  JSObject.get "branch" formEntries = Some (FString (branch (project current))) /\
  JSObject.get "buildCommand" formEntries
    = Some (FString (buildCommand (project current))) /\
  JSObject.get "startCommand" formEntries
    = Some (FString (startCommand (project current))) /\
  JSObject.get "action" formEntries = None.
Proof.
  destruct (ProjectSettingsPage_inv _ _ _ _ rendered) as (b & _ & ->).
  cbv zeta. rewrite fields_settingsPage.
  unfold as_formData. rewrite map_app.
  rewrite !JSObjectFacts.get_fromEntries, !lookup_last_app.
  repeat (split; [reflexivity|]).
  cbn. apply lookup_last_None. intros k Hk.
  rewrite !map_map in Hk. apply in_map_iff in Hk as (envVar & <- & _).
  cbn. discriminate.
Qed.

(** X16: every input and select of the page is disabled exactly while
    [isSubmittingOrLoading] holds: one control per variable and the four
    settings controls all carry that flag. *)
Theorem page_controls_follow_the_transition :
  exists submitting,
    isSubmittingOrLoading transition = Some submitting /\
    Forall (fun disabled => disabled = Some (PBool submitting)) (controls_disabled page) /\
    List.length (controls_disabled page) = (List.length (envVars current) + 4)%nat.
Proof.
  destruct (ProjectSettingsPage_inv _ _ _ _ rendered) as (b & Hb & ->).
  exists b. split; [exact Hb|].
  rewrite controls_settingsPage. split.
  - apply Forall_app. split; [|repeat constructor].
    apply Forall_forall. intros d Hd.
    apply in_map_iff in Hd as (envVar & <- & _). reflexivity.
  - rewrite length_app, length_map. reflexivity.
Qed.

(** X17: the page shows field errors only when nothing is being
    submitted and the action answered with validation errors; it then
    has one error slot per variable, under the path of its key, and one
    for each of [branch], [buildCommand] and [startCommand], all given
    the whole error list; [autoDeploy] has none. *)
Theorem page_error_slots :
  exists submitting,
    isSubmittingOrLoading transition = Some submitting /\
    formErrors page =
      match submitting, actionData with
      | false, Some (validationError errors) =>
          map (fun envVar => ([key envVar], errors)) (envVars current) ++
          [(["branch"], errors); (["buildCommand"], errors); (["startCommand"], errors)]
      | _, _ => []
      end.
Proof.
  destruct (ProjectSettingsPage_inv _ _ _ _ rendered) as (b & Hb & ->).
  exists b. split; [exact Hb|].
  destruct b.
  - apply formErrors_hidden_settingsPage. now left.
  - destruct actionData as [[errors|]|].
    + apply formErrors_shown_settingsPage.
    + apply formErrors_hidden_settingsPage. right. discriminate.
    + apply formErrors_hidden_settingsPage. right. discriminate.
Qed.

(** X18: the only [action] values the page can submit are "save" and
    "destroy": the destroy button is always there, the save button only
    while nothing is being submitted, and no other element has both a
    name and a value. *)
Theorem page_submit_buttons :
  exists submitting,
    isSubmittingOrLoading transition = Some submitting /\
    buttons page =
      (if submitting then [] else [("action", "save")]) ++ [("action", "destroy")].
Proof.
  destruct (ProjectSettingsPage_inv _ _ _ _ rendered) as (b & Hb & ->).
  exists b. split; [exact Hb | apply buttons_settingsPage].
Qed.

End PageExtras.

(** ** The further facts at the sample requests and pages *)

Lemma envVars_of_empty_iff_witness :
  envVars_of [("autoDeploy", "yes"); ("branch", "main")] = [].
Proof.
  apply (proj2 (envVars_of_empty_iff [("autoDeploy", "yes"); ("branch", "main")])).
  intros k [<-|[<-|[]]]; reflexivity.
Defined.

Lemma formEntries_last_field_wins_witness :
  JSObject.get "branch"
    (JSObject.fromEntries [("branch", "main"); ("autoDeploy", "yes"); ("branch", "dev")])
  = Some "dev".
Proof.
  apply (proj1 (formEntries_last_field_wins
                  [("branch", "main"); ("autoDeploy", "yes"); ("branch", "dev")] "branch")).
  exists [("branch", "main"); ("autoDeploy", "yes")], [].
  split; [reflexivity | simpl; tauto].
Defined.

Lemma envVars_of_keeps_form_order_witness :
  envVars_of (JSObject.fromEntries
                [("envVars[B]", "1"); ("branch", "main"); ("envVars[A]", "2")])
  = [("B", "1"); ("A", "2")].
Proof.
  apply (envVars_of_keeps_form_order
           [("envVars[B]", "1"); ("branch", "main"); ("envVars[A]", "2")]).
  - simpl. repeat constructor; simpl; intuition discriminate.
  - intros kv [<-|[<-|[]]]; reflexivity.
Defined.

Lemma unreadable_body_stops_the_handler_witness :
  let run := action Sample.services Sample.params
               SampleFailures.unreadable_request (start []) in
  fst run = Threw (Rejected "malformed body") /\
  trace (snd run) = [EvFormData (inl (Rejected "malformed body"))] /\
  world (snd run) = [].
Proof.
  apply (unreadable_body_stops_the_handler Sample.services Sample.params
           SampleFailures.unreadable_request [] "p1" "acme"); reflexivity.
Defined.


Lemma failed_flash_keeps_the_update_witness :
  let run := action SampleFailures.services Sample.params
               (Sample.request_of Sample.save_form) (start []) in
  fst run = Threw (Rejected "session store unavailable") /\
  update_calls (trace (snd run)) =
    [("p1", {| Sample.data_autoDeploy := true;
               Sample.data_branch := "main";
               Sample.data_envVars := [("FOO", FString "bar")] |})] /\
  cookie_calls (trace (snd run)) = [] /\
  world (snd run) = ["updated p1"].
Proof.
  apply (failed_flash_keeps_the_update SampleFailures.services Sample.params
           (Sample.request_of Sample.save_form) [] "p1" "acme" Sample.save_form
           _ true ["updated p1"]);
    try reflexivity.
  simpl. discriminate.
Defined.

Lemma failed_disable_propagates_witness :
  let run := action SampleFailures.services Sample.params
               (Sample.request_of Sample.destroy_form) (start []) in
  fst run = Threw (Rejected "database unavailable") /\
  trace (snd run) =
    [EvFormData (inr Sample.destroy_form);
     EvDisable "p1" (inl (Rejected "database unavailable"))] /\
  world (snd run) = [].
Proof.
  apply (failed_disable_propagates SampleFailures.services Sample.params
           (Sample.request_of Sample.destroy_form) [] "p1" "acme" Sample.destroy_form);
    reflexivity.
Defined.

Lemma flash_follows_a_successful_service_witness :
  let text := "Settings updated. Deploying your repo now..." in
  let data := {| Sample.data_autoDeploy := true;
                 Sample.data_branch := "main";
                 Sample.data_envVars := [("FOO", FString "bar")] |} in
  let before : list (Event Sample.Session Sample.Headers Sample.SettingsData) :=
    [EvFormData (inr Sample.save_form);
     EvConsoleLog (JSObject.fromEntries Sample.save_form) [("FOO", FString "bar")];
     EvValidate (JSObject.fromEntries Sample.save_form) [("FOO", FString "bar")]
       (success data);
     EvUpdate "p1" data (inr true)] in
  (exists p project,
      In (EvDisable p (inr project)) before /\ text = removed_message project) \/
  (exists p data isDeploying,
      In (EvUpdate p data (inr isDeploying)) before /\
      text = updated_message isDeploying).
Proof.
  cbv zeta.
  eapply (proj1 (flash_follows_a_successful_service Sample.services Sample.params
                   (Sample.request_of Sample.save_form) []) _ _ (inr _)).
  reflexivity.
Defined.

Lemma first_action_field_decides_witness :
  let run := action Sample.services Sample.params
               (Sample.request_of SampleFailures.two_actions_form) (start []) in
  disable_calls (trace (snd run)) = [] /\
  exists formEntries envVars,
    validate_calls (trace (snd run)) = [(formEntries, envVars)] /\
    JSObject.get "action" formEntries = Some (FString "destroy").
Proof.
  apply (first_action_field_decides Sample.services Sample.params
           (Sample.request_of SampleFailures.two_actions_form) [] "p1" "acme"
           SampleFailures.two_actions_form).
  - reflexivity.
  - reflexivity.
  - simpl. discriminate.
  - exists [("action", FString "save"); ("branch", FString "main")], [].
    split; [reflexivity | simpl; tauto].
Defined.

Lemma update_calls_in_sequence_witness :
  let run := action Sample.services Sample.params
               (Sample.request_of Sample.save_later_form) (start []) in
  let data := {| Sample.data_autoDeploy := false;
                 Sample.data_branch := "main";
                 Sample.data_envVars := [("FOO", FString "bar")] |} in
  let text := "Settings updated. They'll take effect on the next deployment." in
  trace (snd run) =
    [EvFormData (inr Sample.save_later_form);
     EvConsoleLog Sample.save_later_form [("FOO", FString "bar")];
     EvValidate Sample.save_later_form [("FOO", FString "bar")] (success data);
     EvUpdate "p1" data (inr false);
     EvSuccessMessage (Sample.request_of Sample.save_later_form) text (inr text);
     EvToastCookie text (inr [("Set-Cookie", text)])] /\
  world (snd run) = ["updated p1"].
Proof.
  eapply (update_calls_in_sequence Sample.services Sample.params
           (Sample.request_of Sample.save_later_form) [] "p1" "acme"
           Sample.save_later_form);
    try reflexivity.
  simpl. discriminate.
Defined.

Lemma destroy_calls_in_sequence_witness :
  let run := action Sample.services Sample.params
               (Sample.request_of Sample.destroy_form) (start []) in
  let text := "Repository acme/p1 has been removed and will no longer be deployed." in
  trace (snd run) =
    [EvFormData (inr Sample.destroy_form);
     EvDisable "p1" (inr {| name := "acme/p1" |});
     EvSuccessMessage (Sample.request_of Sample.destroy_form) text (inr text);
     EvToastCookie text (inr [("Set-Cookie", text)])] /\
  world (snd run) = ["disabled p1"].
Proof.
  eapply (destroy_calls_in_sequence Sample.services Sample.params
           (Sample.request_of Sample.destroy_form) [] "p1" "acme" Sample.destroy_form);
    reflexivity.
Defined.

Lemma page_fields_reshape_to_the_variables_witness :
  envVars_of (JSObject.fromEntries
    (as_formData (fields (settingsPage SamplePage.current None false)))) =
  [("GITHUB_REPOSITORY", FString "triggerdotdev/trigger.dev"); ("API_KEY", FString "")].
Proof.
  apply (page_fields_reshape_to_the_variables SamplePage.current None SamplePage.idle
           _ eq_refl).
  - simpl. repeat constructor; simpl; intuition discriminate.
  - intros envVar [<-|[<-|[]]]; split; reflexivity.
Defined.

Lemma page_fields_carry_the_settings_witness :
  let formEntries :=
    JSObject.fromEntries
      (as_formData (fields (settingsPage SamplePage.current None false))) in
  JSObject.get "autoDeploy" formEntries = Some (FString "yes") /\
  JSObject.get "branch" formEntries = Some (FString "main") /\
  JSObject.get "buildCommand" formEntries = Some (FString "npm install") /\
  JSObject.get "startCommand" formEntries = Some (FString "npm start") /\
  JSObject.get "action" formEntries = None.
Proof.
  exact (page_fields_carry_the_settings SamplePage.current None SamplePage.idle
           _ eq_refl).
Defined.

Lemma page_controls_follow_the_transition_witness :
  exists submitting,
    isSubmittingOrLoading SamplePage.saving = Some submitting /\
    Forall (fun disabled => disabled = Some (PBool submitting))
      (controls_disabled (settingsPage SamplePage.current SamplePage.rejected true)) /\
    List.length (controls_disabled (settingsPage SamplePage.current SamplePage.rejected true))
      = 6%nat.
Proof.
  exact (page_controls_follow_the_transition SamplePage.current SamplePage.rejected
           SamplePage.saving _ eq_refl).
Defined.

Lemma page_error_slots_witness :
  exists submitting,
    isSubmittingOrLoading SamplePage.idle = Some submitting /\
    formErrors (settingsPage SamplePage.current SamplePage.rejected false) =
      match submitting, SamplePage.rejected with
      | false, Some (validationError errors) =>
          map (fun envVar => ([key envVar], errors)) (envVars SamplePage.current) ++
          [(["branch"], errors); (["buildCommand"], errors); (["startCommand"], errors)]
      | _, _ => []
      end.
Proof.
  exact (page_error_slots SamplePage.current SamplePage.rejected SamplePage.idle
           _ eq_refl).
Defined.

Lemma page_submit_buttons_witness :
  exists submitting,
    isSubmittingOrLoading SamplePage.saving = Some submitting /\
    buttons (settingsPage SamplePage.current None true) =
      (if submitting then [] else [("action", "save")]) ++ [("action", "destroy")].
Proof.
  exact (page_submit_buttons SamplePage.current None SamplePage.saving _ eq_refl).
Defined.
